(** * pkg/distlock: the distributed-lock adapters

    A shallow embedding of the Go package [distlock]: the option set
    ([NewOptions], [ApplyOptions], [WithLockName], ...), the seven backend
    adapters (etcd, consul, zookeeper, redis, memcached, mongo, gorm) with
    their [Lock], [Unlock], [Renew] and [renewLock], and the statements the
    design document makes about them.

    Conventions.
    - [time.Duration] and instants are integers counting nanoseconds.
    - A method with a pointer receiver is a computation in the monad [M]
      below: it reads and writes the receiver ([self]), the backend
      ([store]), the heap of tickers and the list of goroutines, and it
      appends what it does to a [trace].
    - Every exported method holds [l.mu] from its first statement to its
      return, so a method body is one atomic step of the process; the only
      code that runs outside the mutex is the [select] of [renewLock].
    - The store clients are external libraries.  Each adapter module starts
      with a small model of the part of the client it calls; a backend call
      can also fail with a transport error taken from [faults]. *)

From Stdlib Require Import ZArith String List Lia.
From stdpp Require Import base option list gmap strings.

Local Open Scope string_scope.
Local Open Scope list_scope.
Local Open Scope Z_scope.

(** ** time *)

Definition Duration := Z.
Definition Time := Z.

Definition Nanosecond : Duration := 1.
Definition Millisecond : Duration := 1000000.
Definition Second : Duration := 1000000000.

(** [t.Add(d)] and [t.Before(u)]. *)
Definition Time_Add (t : Time) (d : Duration) : Time := t + d.
Definition Time_Before (t u : Time) : bool := t <? u.

(** [d / 2] on [int64]: Go's division truncates toward zero. *)
Definition Duration_half (d : Duration) : Duration := Z.quot d 2.

(** [int64(d.Seconds())]: the whole seconds of [d].  [Seconds] goes through
    [float64]; the truncation below agrees with it for every duration whose
    float image does not round up to the next integer, in particular for
    all durations below 2^22 seconds. *)
Definition Duration_whole_seconds (d : Duration) : Z := Z.quot d Second.

(** ** errors *)

(** The [error] values that reach the adapters.  [errorString] is what
    [fmt.Errorf] and [errors.New] build (the message is all the adapters
    and their callers can observe); the others are the typed or sentinel
    errors the code inspects. *)
Inductive error :=
| errorString (msg : string)
| MySQLError (Number : Z) (Message : string)
| PgError (Code : string) (Message : string)
| memcache_ErrNotStored
| memcache_ErrCacheMiss
| zk_ErrNodeExists
| zk_ErrNoNode
| redis_Nil
| gorm_ErrRecordNotFound.

(** [err.Error()] *)
Definition Error_msg (e : error) : string :=
  match e with
  | errorString m => m
  | MySQLError _ m => m
  | PgError _ m => m
  | memcache_ErrNotStored => "memcache: item not stored"
  | memcache_ErrCacheMiss => "memcache: cache miss"
  | zk_ErrNodeExists => "zk: node already exists"
  | zk_ErrNoNode => "zk: node does not exist"
  | redis_Nil => "redis: nil"
  | gorm_ErrRecordNotFound => "record not found"
  end.

#[global] Instance error_eq_dec : EqDecision error.
Proof. solve_decision. Defined.

(** [fmt.Errorf(prefix + ": %v", err)] and [fmt.Errorf(prefix + "%s", s)] *)
Definition Errorf_v (pre : string) (e : error) : error :=
  errorString (pre +:+ ": " +:+ Error_msg e).
Definition Errorf_s (pre s : string) : error := errorString (pre +:+ s).

(** ** logger *)

Inductive Level := LDebug | LWarn | LInfo | LError.

(** [logger.Logger] is an interface.  [emptyLogger] is
    [empty.NewLogger()], whose four methods have empty bodies;
    [recordingLogger] stands for any implementation that writes. *)
Inductive Logger :=
| emptyLogger
| recordingLogger (id : string).

Definition Logger_write (lg : Logger) (lv : Level) (msg : string)
  : list (Level * string) :=
  match lg with
  | emptyLogger => []
  | recordingLogger _ => [(lv, msg)]
  end.

(** ** options (distlock.go) *)

Module Opt.

Definition DefaultLockName : string := "onex-distributed-lock".

Record Options := mkOptions {
  lockName : string;
  lockTimeout : Duration;
  ownerID : string;
  logger : Logger
}.

(** [type Option func(o *Options)]: a function that updates the options
    in place. *)
Definition Option := Options -> Options.

(** [os.Hostname()] is an input: the name and the error it returns.
    [NewOptions] drops the error. *)
Definition NewOptions (os_Hostname : string * option error) : Options :=
  let ownerID := fst os_Hostname in
  {| lockName := DefaultLockName;
     lockTimeout := 10 * Second;
     ownerID := ownerID;
     logger := emptyLogger |}.

Definition ApplyOptions (os_Hostname : string * option error)
           (opts : list Option) : Options :=
  fold_left (fun o opt => opt o) opts (NewOptions os_Hostname).

Definition WithLockName (name : string) : Option :=
  fun o => {| lockName := name; lockTimeout := lockTimeout o;
              ownerID := ownerID o; logger := logger o |}.

Definition WithLockTimeout (timeout : Duration) : Option :=
  fun o => {| lockName := lockName o; lockTimeout := timeout;
              ownerID := ownerID o; logger := logger o |}.

Definition WithOwnerID (owner : string) : Option :=
  fun o => {| lockName := lockName o; lockTimeout := lockTimeout o;
              ownerID := owner; logger := logger o |}.

Definition WithLogger (lg : Logger) : Option :=
  fun o => {| lockName := lockName o; lockTimeout := lockTimeout o;
              ownerID := ownerID o; logger := lg |}.

End Opt.

(** ** the process: receiver, backend, tickers, goroutines *)

(** A [*time.Ticker] is an index into the heap of tickers.  [tk_next] is
    the instant of the next tick, [tk_C] tells whether a tick is waiting in
    the ticker's channel (its buffer holds one). *)
Record Ticker := mkTicker {
  tk_interval : Duration;
  tk_running : bool;
  tk_next : Time;
  tk_C : bool
}.

(** [chan struct{}] made by [make(chan struct{})]: unbuffered.  A receive
    can proceed when the channel is closed or a sender waits. *)
Record Chan := mkChan {
  ch_closed : bool;
  ch_senders : nat
}.

Definition make_chan : Chan := {| ch_closed := false; ch_senders := 0%nat |}.
Definition Chan_ready (c : Chan) : bool :=
  ch_closed c || negb (Nat.eqb (ch_senders c) 0%nat).

(** Where a [renewLock] goroutine stands. *)
Inductive GState :=
| GLoop               (* at the head of the [for], before the [select] *)
| GSelect (t : nat)   (* blocked in [select] on [stopChan] and ticker [t] *)
| GTick               (* took a tick, about to call [l.Renew] *)
| GDone.              (* returned through [<-l.stopChan] *)

#[global] Instance GState_eq_dec : EqDecision GState.
Proof. solve_decision. Defined.

Inductive OpName := OpLock | OpUnlock | OpRenew.

(** An argument handed to [renewLock] besides [ctx]. *)
Inductive Arg := AStr (s : string) | AInt (z : Z).
Inductive Thread := Caller | Goroutine (g : nat).

Inductive Result (A : Type) :=
| Ret (a : A)
| Panic (msg : string).
Arguments Ret {A} a.
Arguments Panic {A} msg.

Section Runtime.
(** [L]: the adapter's struct; [S]: the backend's state; [C]: the calls
    the adapter makes to its store client. *)
Context {L S C : Type}.

Inductive Event :=
| EvBegin (who : Thread) (op : OpName)
| EvEnd (who : Thread) (op : OpName) (res : Result (option error))
| EvCall (c : C)
| EvNewTicker (t : nat) (d : Duration)
| EvTickerStop (t : nat)
| EvGo (g : nat) (args : list Arg)
| EvChanClose
| EvChanSend
| EvPanic (who : Thread) (msg : string)
| EvLog (lv : Level) (msg : string).

Record State := mkState {
  self : L;
  clock : Time;
  store : S;
  faults : list (option error);
  tickers : list Ticker;
  goroutines : list GState;
  crashed : bool;
  trace : list Event
}.

Definition M (A : Type) : Type := State -> Result A * State.

Definition ret {A} (a : A) : M A := fun st => (Ret a, st).

Definition bind {A B} (m : M A) (k : A -> M B) : M B :=
  fun st =>
    match m st with
    | (Ret a, st') => k a st'
    | (Panic msg, st') => (Panic msg, st')
    end.

Definition panic {A} (msg : string) : M A := fun st => (Panic msg, st).

Definition get_self : M L := fun st => (Ret (self st), st).

Definition put_self (l : L) : M unit := fun st =>
  (Ret tt, mkState l (clock st) (store st) (faults st) (tickers st)
                   (goroutines st) (crashed st) (trace st)).

(** [time.Now()] *)
Definition time_Now : M Time := fun st => (Ret (clock st), st).

Definition emit (es : list Event) : M unit := fun st =>
  (Ret tt, mkState (self st) (clock st) (store st) (faults st) (tickers st)
                   (goroutines st) (crashed st) (trace st ++ es)).

(** [lg.Info(msg, ...)] and the like: what reaches the trace is what the
    logger writes (the key/value arguments are not kept). *)
Definition log (lg : Logger) (lv : Level) (msg : string) : M unit :=
  emit (map (fun p => EvLog (fst p) (snd p)) (Logger_write lg lv msg)).

(** One call to the store client.  The next entry of [faults] decides
    whether the call reaches the backend; [f] is what the backend does at
    the current instant. *)
Definition backend {A} (c : C) (f : Time -> S -> (A + error) * S)
  : M (A + error) := fun st =>
  let tr := trace st ++ [EvCall c] in
  match faults st with
  | Some e :: fs =>
      (Ret (inr e), mkState (self st) (clock st) (store st) fs (tickers st)
                            (goroutines st) (crashed st) tr)
  | fs =>
      let '(r, s') := f (clock st) (store st) in
      (Ret r, mkState (self st) (clock st) s' (tl fs) (tickers st)
                      (goroutines st) (crashed st) tr)
  end.

(** [time.NewTicker(d)]: panics unless [d > 0]. *)
Definition time_NewTicker (d : Duration) : M nat := fun st =>
  if d <=? 0 then (Panic "non-positive interval for NewTicker", st)
  else
    let t := length (tickers st) in
    let tk := {| tk_interval := d; tk_running := true;
                 tk_next := clock st + d; tk_C := false |} in
    (Ret t, mkState (self st) (clock st) (store st) (faults st)
                    (tickers st ++ [tk]) (goroutines st) (crashed st)
                    (trace st ++ [EvNewTicker t d])).

Definition stop_ticker (tk : Ticker) : Ticker :=
  {| tk_interval := tk_interval tk; tk_running := false;
     tk_next := tk_next tk; tk_C := tk_C tk |}.

(** [t.Stop()]: no more ticks are sent; the channel is left as it is. *)
Definition Ticker_Stop (t : nat) : M unit := fun st =>
  (Ret tt, mkState (self st) (clock st) (store st) (faults st)
                   (alter stop_ticker t (tickers st)) (goroutines st)
                   (crashed st) (trace st ++ [EvTickerStop t])).

(** [go l.renewLock(ctx, args...)]: the new goroutine stands at the head
    of its loop.  No [renewLock] body reads its extra arguments. *)
Definition go_renewLock (args : list Arg) : M unit := fun st =>
  (Ret tt, mkState (self st) (clock st) (store st) (faults st) (tickers st)
                   (goroutines st ++ [GLoop]) (crashed st)
                   (trace st ++ [EvGo (length (goroutines st)) args])).

(** What a call to the store client can come back with: the fault that
    stops it on the way, or the backend's answer [f]. *)
Definition answer {A} (f : Time -> S -> (A + error) * S) (st : State)
           (r : A + error) (s' : S) : Prop :=
  (exists e, head (faults st) = Some (Some e) /\ r = inr e /\ s' = store st)
  \/ ((forall e, head (faults st) <> Some (Some e))
      /\ (r, s') = f (clock st) (store st)).

Definition set_store (s : S) (st : State) : State :=
  mkState (self st) (clock st) s (faults st) (tickers st)
          (goroutines st) (crashed st) (trace st).

End Runtime.

Arguments Event : clear implicits.
Arguments State : clear implicits.
Arguments M : clear implicits.

Declare Scope go_scope.
Delimit Scope go_scope with go.
Notation "x <- m ;; k" := (bind m (fun x => k))
  (at level 100, m at next level, right associativity) : go_scope.
Notation "m ;;; k" := (bind m (fun _ => k))
  (at level 100, right associativity) : go_scope.
Local Open Scope go_scope.

(** ** redis.go *)

Module Redis.

(** *** the part of go-redis the adapter calls *)

Record Entry := mkEntry {
  value : string;
  expireAt : option Time   (* [None]: the key has no expiry *)
}.

Inductive Call :=
| CSetNX (key val : string) (ttl : Duration)
| CGet (key : string)
| CDel (key : string)
| CExpire (key : string) (ttl : Duration).

Definition live (now : Time) (e : Entry) : bool :=
  match expireAt e with
  | None => true
  | Some t => now <? t
  end.

(** The entry of [key] as the server sees it at [now]: an entry whose
    expiry has passed is gone. *)
Definition find (now : Time) (s : gmap string Entry) (key : string)
  : option Entry :=
  match s !! key with
  | Some e => if live now e then Some e else None
  | None => None
  end.

(** [SET key val NX PX ttl]; a zero [ttl] sets no expiry, a negative
    one is refused by the server. *)
Definition do_SetNX (key val : string) (ttl : Duration)
           (now : Time) (s : gmap string Entry)
  : (bool + error) * gmap string Entry :=
  if ttl <? 0 then (inr (errorString "ERR invalid expire time in 'set' command"), s)
  else
    match find now s key with
    | Some _ => (inl false, s)
    | None =>
        let at_ := if ttl =? 0 then None else Some (now + ttl) in
        (inl true, <[key := mkEntry val at_]> s)
    end.

Definition do_Get (key : string) (now : Time) (s : gmap string Entry)
  : (string + error) * gmap string Entry :=
  match find now s key with
  | Some e => (inl (value e), s)
  | None => (inr redis_Nil, s)
  end.

Definition do_Del (key : string) (now : Time) (s : gmap string Entry)
  : (unit + error) * gmap string Entry :=
  (inl tt, delete key s).

(** [EXPIRE key ttl]: a ttl that is not positive deletes the key. *)
Definition do_Expire (key : string) (ttl : Duration)
           (now : Time) (s : gmap string Entry)
  : (bool + error) * gmap string Entry :=
  match find now s key with
  | Some e =>
      if ttl <=? 0 then (inl true, delete key s)
      else (inl true, <[key := mkEntry (value e) (Some (now + ttl))]> s)
  | None => (inl false, s)
  end.

(** *** the adapter *)

Record RedisLocker := mkLocker {
  lockName : string;
  lockTimeout : Duration;
  renewTicker : option nat;
  stopChan : Chan;
  ownerID : string;
  logger : Logger
}.

Definition set_renewTicker (t : option nat) (l : RedisLocker) : RedisLocker :=
  mkLocker (lockName l) (lockTimeout l) t (stopChan l) (ownerID l) (logger l).

Abbreviation Go := (M RedisLocker (gmap string Entry) Call).

Definition SetNX key val ttl : Go (bool + error) :=
  backend (CSetNX key val ttl) (do_SetNX key val ttl).
Definition Get key : Go (string + error) := backend (CGet key) (do_Get key).
Definition Del key : Go (unit + error) := backend (CDel key) (do_Del key).
Definition Expire key ttl : Go (bool + error) :=
  backend (CExpire key ttl) (do_Expire key ttl).

Definition NewRedisLocker (host : string * option error)
           (opts : list Opt.Option) : RedisLocker * list (Level * string) :=
  let o := Opt.ApplyOptions host opts in
  let locker :=
    {| lockName := Opt.lockName o;
       lockTimeout := Opt.lockTimeout o;
       renewTicker := None;
       stopChan := make_chan;
       ownerID := Opt.ownerID o;
       logger := Opt.logger o |} in
  (locker, Logger_write (logger locker) LInfo "RedisLocker initialized").

Definition Lock : Go (option error) :=
  l <- get_self ;;
  r <- SetNX (lockName l) (ownerID l) (lockTimeout l) ;;
  match r with
  | inr err =>
      log (logger l) LError "Failed to set lock" ;;;
      ret (Some err)
  | inl false =>
      r <- Get (lockName l) ;;
      match r with
      | inr err =>
          log (logger l) LError "Failed to get current owner ID" ;;;
          ret (Some err)
      | inl currentOwnerID =>
          if bool_decide (currentOwnerID <> ownerID l) then
            log (logger l) LWarn "Lock is already held by another owner" ;;;
            ret (Some (Errorf_s "lock is already held by " currentOwnerID))
          else
            log (logger l) LInfo
                "Lock is already held by the current owner, extending the lock if needed" ;;;
            ret None
      end
  | inl true =>
      t <- time_NewTicker (Duration_half (lockTimeout l)) ;;
      put_self (set_renewTicker (Some t) l) ;;;
      go_renewLock [] ;;;
      log (logger l) LInfo "Lock acquired" ;;;
      ret None
  end.

Definition Unlock : Go (option error) :=
  l <- get_self ;;
  l <- match renewTicker l with
       | Some t =>
           Ticker_Stop t ;;;
           put_self (set_renewTicker None l) ;;;
           log (logger l) LInfo "Stopped renewing lock" ;;;
           ret (set_renewTicker None l)
       | None => ret l
       end ;;
  r <- Del (lockName l) ;;
  match r with
  | inr err =>
      log (logger l) LError "Failed to delete lock" ;;;
      ret (Some err)
  | inl _ =>
      log (logger l) LInfo "Lock released" ;;;
      ret None
  end.

Definition Renew : Go (option error) :=
  l <- get_self ;;
  r <- Expire (lockName l) (lockTimeout l) ;;
  match r with
  | inr err =>
      log (logger l) LError "Failed to renew lock" ;;;
      ret (Some err)
  | inl _ =>
      log (logger l) LInfo "Lock renewed" ;;;
      ret None
  end.

(** The body of [case <-l.renewTicker.C] in [renewLock], after
    [l.Renew(ctx)] has returned [err]. *)
Definition renewLock_after (err : option error) : Go unit :=
  l <- get_self ;;
  match err with
  | Some _ => log (logger l) LError "Failed to renew lock"
  | None => ret tt
  end.

End Redis.

(** ** memcached.go *)

Module Memcached.

(** *** the part of gomemcache the adapter calls *)

Record Entry := mkEntry {
  value : string;
  expireAt : option Time
}.

(** [memcache.Item]: [Expiration] is in seconds, zero meaning none. *)
Record Item := mkItem {
  Key : string;
  Value : string;
  Expiration : Z
}.

Inductive Call :=
| CAdd (item : Item)
| CReplace (item : Item)
| CDelete (key : string).

Definition find (now : Time) (s : gmap string Entry) (key : string)
  : option Entry :=
  match s !! key with
  | Some e =>
      match expireAt e with
      | None => Some e
      | Some t => if now <? t then Some e else None
      end
  | None => None
  end.

Definition entry_of (now : Time) (it : Item) : Entry :=
  mkEntry (Value it)
          (if Expiration it =? 0 then None
           else Some (now + Expiration it * Second)).

(** [Add] stores the item only if the key holds nothing. *)
Definition do_Add (it : Item) (now : Time) (s : gmap string Entry)
  : (unit + error) * gmap string Entry :=
  match find now s (Key it) with
  | Some _ => (inr memcache_ErrNotStored, s)
  | None => (inl tt, <[Key it := entry_of now it]> s)
  end.

(** [Replace] stores the item only if the key holds something. *)
Definition do_Replace (it : Item) (now : Time) (s : gmap string Entry)
  : (unit + error) * gmap string Entry :=
  match find now s (Key it) with
  | Some _ => (inl tt, <[Key it := entry_of now it]> s)
  | None => (inr memcache_ErrNotStored, s)
  end.

Definition do_Delete (key : string) (now : Time) (s : gmap string Entry)
  : (unit + error) * gmap string Entry :=
  match find now s key with
  | Some _ => (inl tt, delete key s)
  | None => (inr memcache_ErrCacheMiss, s)
  end.

(** *** the adapter *)

Record MemcachedLocker := mkLocker {
  lockKey : string;
  lockTimeout : Duration;
  renewTicker : option nat;
  stopChan : Chan;
  ownerID : string;
  logger : Logger
}.

Definition set_renewTicker (t : option nat) (l : MemcachedLocker)
  : MemcachedLocker :=
  mkLocker (lockKey l) (lockTimeout l) t (stopChan l) (ownerID l) (logger l).

Abbreviation Go := (M MemcachedLocker (gmap string Entry) Call).

Definition Add it : Go (unit + error) := backend (CAdd it) (do_Add it).
Definition Replace it : Go (unit + error) :=
  backend (CReplace it) (do_Replace it).
Definition Delete key : Go (unit + error) :=
  backend (CDelete key) (do_Delete key).

Definition NewMemcachedLocker (host : string * option error)
           (opts : list Opt.Option)
  : MemcachedLocker * list (Level * string) :=
  let o := Opt.ApplyOptions host opts in
  let locker :=
    {| lockKey := Opt.lockName o;
       lockTimeout := Opt.lockTimeout o;
       renewTicker := None;
       stopChan := make_chan;
       ownerID := Opt.ownerID o;
       logger := Opt.logger o |} in
  (locker, Logger_write (logger locker) LInfo "MemcachedLocker initialized").

Definition Lock : Go (option error) :=
  l <- get_self ;;
  let item := {| Key := lockKey l;
                 Value := ownerID l;
                 Expiration := Duration_whole_seconds (lockTimeout l) |} in
  r <- Add item ;;
  match r with
  | inr err =>
      if bool_decide (err = memcache_ErrNotStored) then
        log (logger l) LWarn "Lock is already held by another owner" ;;;
        ret (Some (errorString "lock is already held by another owner"))
      else
        log (logger l) LError "Failed to acquire lock" ;;;
        ret (Some (Errorf_v "failed to acquire lock" err))
  | inl _ =>
      t <- time_NewTicker (Duration_half (lockTimeout l)) ;;
      put_self (set_renewTicker (Some t) l) ;;;
      go_renewLock [] ;;;
      log (logger l) LInfo "Lock acquired" ;;;
      ret None
  end.

Definition Unlock : Go (option error) :=
  l <- get_self ;;
  l <- match renewTicker l with
       | Some t =>
           Ticker_Stop t ;;;
           put_self (set_renewTicker None l) ;;;
           log (logger l) LInfo "Stopped renewing lock" ;;;
           ret (set_renewTicker None l)
       | None => ret l
       end ;;
  r <- Delete (lockKey l) ;;
  match r with
  | inr err =>
      log (logger l) LError "Failed to release lock" ;;;
      ret (Some (Errorf_v "failed to release lock" err))
  | inl _ =>
      log (logger l) LInfo "Lock released" ;;;
      ret None
  end.

Definition Renew : Go (option error) :=
  l <- get_self ;;
  let item := {| Key := lockKey l;
                 Value := ownerID l;
                 Expiration := Duration_whole_seconds (lockTimeout l) |} in
  r <- Replace item ;;
  match r with
  | inr err =>
      if bool_decide (err = memcache_ErrNotStored) then
        log (logger l) LWarn "Lock is not held by this owner anymore" ;;;
        ret (Some (errorString "lock is not held by this owner anymore"))
      else
        log (logger l) LError "Failed to renew lock" ;;;
        ret (Some (Errorf_v "failed to renew lock" err))
  | inl _ =>
      log (logger l) LInfo "Lock renewed" ;;;
      ret None
  end.

Definition renewLock_after (err : option error) : Go unit :=
  l <- get_self ;;
  match err with
  | Some _ => log (logger l) LError "Failed to renew lock"
  | None => ret tt
  end.

End Memcached.

(** ** etcd.go *)

Module Etcd.

(** *** the part of the etcd client the adapter calls *)

Record LeaseEntry := mkLease {
  ttl : Z;              (* seconds *)
  deadline : Time
}.

Record Store := mkStore {
  leases : gmap Z LeaseEntry;
  kv : gmap string (string * Z);   (* key -> value, lease *)
  nextLease : Z
}.

Inductive Call :=
| CGrant (ttl : Z)
| CPut (key val : string) (lease : Z)
| CDelete (key : string)
| CRevoke (lease : Z)
| CKeepAliveOnce (lease : Z).

(** A lease past its deadline is gone, and its keys with it. *)
Definition lease_live (now : Time) (s : Store) (id : Z) : bool :=
  match leases s !! id with
  | Some le => now <? deadline le
  | None => false
  end.

Definition find (now : Time) (s : Store) (key : string)
  : option (string * Z) :=
  match kv s !! key with
  | Some (v, id) => if lease_live now s id then Some (v, id) else None
  | None => None
  end.

Definition ErrLeaseNotFound : error :=
  errorString "etcdserver: requested lease not found".

Definition do_Grant (t : Z) (now : Time) (s : Store)
  : (Z + error) * Store :=
  let id := nextLease s in
  (inl id,
   mkStore (<[id := mkLease t (now + t * Second)]> (leases s))
           (kv s) (id + 1)).

(** [Put] with [WithLease]: writes the key whatever it held before. *)
Definition do_Put (key val : string) (id : Z) (now : Time) (s : Store)
  : (unit + error) * Store :=
  if lease_live now s id then
    (inl tt, mkStore (leases s) (<[key := (val, id)]> (kv s)) (nextLease s))
  else (inr ErrLeaseNotFound, s).

Definition do_Delete (key : string) (now : Time) (s : Store)
  : (unit + error) * Store :=
  (inl tt, mkStore (leases s) (delete key (kv s)) (nextLease s)).

Definition do_Revoke (id : Z) (now : Time) (s : Store)
  : (unit + error) * Store :=
  if lease_live now s id then
    (inl tt,
     mkStore (delete id (leases s))
             (filter (fun p => snd (snd p) <> id) (kv s))
             (nextLease s))
  else (inr ErrLeaseNotFound, s).

Definition do_KeepAliveOnce (id : Z) (now : Time) (s : Store)
  : (unit + error) * Store :=
  match leases s !! id with
  | Some le =>
      if now <? deadline le then
        (inl tt,
         mkStore (<[id := mkLease (ttl le) (now + ttl le * Second)]> (leases s))
                 (kv s) (nextLease s))
      else (inr ErrLeaseNotFound, s)
  | None => (inr ErrLeaseNotFound, s)
  end.

(** *** the adapter *)

Record EtcdLocker := mkLocker {
  leaseID : Z;
  lockKey : string;
  lockTimeout : Duration;
  renewTicker : option nat;
  stopChan : Chan;
  ownerID : string;
  logger : Logger
}.

Definition set_renewTicker (t : option nat) (l : EtcdLocker) : EtcdLocker :=
  mkLocker (leaseID l) (lockKey l) (lockTimeout l) t (stopChan l)
           (ownerID l) (logger l).

Definition set_leaseID (id : Z) (l : EtcdLocker) : EtcdLocker :=
  mkLocker id (lockKey l) (lockTimeout l) (renewTicker l) (stopChan l)
           (ownerID l) (logger l).

Abbreviation Go := (M EtcdLocker Store Call).

Definition Grant t : Go (Z + error) := backend (CGrant t) (do_Grant t).
Definition Put key val id : Go (unit + error) :=
  backend (CPut key val id) (do_Put key val id).
Definition Delete key : Go (unit + error) :=
  backend (CDelete key) (do_Delete key).
Definition Revoke id : Go (unit + error) :=
  backend (CRevoke id) (do_Revoke id).
Definition KeepAliveOnce id : Go (unit + error) :=
  backend (CKeepAliveOnce id) (do_KeepAliveOnce id).

(** The zero value of [leaseID] is 0. *)
Definition NewEtcdLocker (host : string * option error)
           (opts : list Opt.Option) : EtcdLocker * list (Level * string) :=
  let o := Opt.ApplyOptions host opts in
  let locker :=
    {| leaseID := 0;
       lockKey := Opt.lockName o;
       lockTimeout := Opt.lockTimeout o;
       renewTicker := None;
       stopChan := make_chan;
       ownerID := Opt.ownerID o;
       logger := Opt.logger o |} in
  (locker, []).

Definition Lock : Go (option error) :=
  l <- get_self ;;
  r <- Grant (Duration_whole_seconds (lockTimeout l)) ;;
  match r with
  | inr err => ret (Some err)
  | inl leaseResp_ID =>
      let l := set_leaseID leaseResp_ID l in
      put_self l ;;;
      r <- Put (lockKey l) (ownerID l) leaseResp_ID ;;
      match r with
      | inr err => ret (Some (Errorf_v "failed to acquire lock" err))
      | inl _ =>
          t <- time_NewTicker (Duration_half (lockTimeout l)) ;;
          put_self (set_renewTicker (Some t) l) ;;;
          go_renewLock [AInt leaseResp_ID] ;;;
          log (logger l) LInfo "Lock acquired" ;;;
          ret None
      end
  end.

Definition Unlock : Go (option error) :=
  l <- get_self ;;
  l <- match renewTicker l with
       | Some t =>
           Ticker_Stop t ;;;
           put_self (set_renewTicker None l) ;;;
           ret (set_renewTicker None l)
       | None => ret l
       end ;;
  r <- Delete (lockKey l) ;;
  match r with
  | inr err => ret (Some err)
  | inl _ =>
      r <- Revoke (leaseID l) ;;
      match r with
      | inr err => ret (Some (Errorf_v "failed to revoke lease" err))
      | inl _ =>
          log (logger l) LInfo "Lock released" ;;;
          ret None
      end
  end.

Definition Renew : Go (option error) :=
  l <- get_self ;;
  r <- KeepAliveOnce (leaseID l) ;;
  match r with
  | inr err => ret (Some err)
  | inl _ => ret None
  end.

Definition renewLock_after (err : option error) : Go unit :=
  l <- get_self ;;
  match err with
  | Some _ => log (logger l) LError "failed to renew lock"
  | None => log (logger l) LInfo "Lock renewed"
  end.

End Etcd.

(** ** consul.go *)

Module Consul.

(** *** the part of the consul client the adapter calls *)

(** [api.SessionEntry]: the adapter fills [TTL] (the timeout, printed)
    and [Behavior]. *)
Record SessionEntry := mkSession {
  TTL : Duration;
  Behavior : string;
  deadline : Time
}.

Definition SessionBehaviorRelease : string := "release".

(** [api.KVPair] as the adapter fills it. *)
Record KVPair := mkKVPair {
  Key : string;
  Value : string;
  Session : string
}.

(** [freshIDs]: the session ids the server hands out next. *)
Record Store := mkStore {
  sessions : gmap string SessionEntry;
  kv : gmap string (string * option string);  (* key -> value, lock holder *)
  freshIDs : list string
}.

Inductive Call :=
| CSessionCreate (ttl : Duration) (behavior : string)
| CKVPut (p : KVPair)
| CKVDelete (key : string)
| CSessionRenew (id : string).

Definition do_SessionCreate (t : Duration) (b : string)
           (now : Time) (s : Store) : (string + error) * Store :=
  match freshIDs s with
  | id :: ids =>
      (inl id, mkStore (<[id := mkSession t b (now + t)]> (sessions s))
                       (kv s) ids)
  | [] => (inr (errorString "Unexpected response code: 500"), s)
  end.

(** [KV().Put] writes the value; of the pair it sends the key, the flags
    and the value only, so the key's lock holder stays what it was (a
    session takes a key with [KV().Acquire]). *)
Definition do_KVPut (p : KVPair) (now : Time) (s : Store)
  : (unit + error) * Store :=
  let holder := match kv s !! Key p with
                | Some (_, h) => h
                | None => None
                end in
  (inl tt, mkStore (sessions s) (<[Key p := (Value p, holder)]> (kv s))
                   (freshIDs s)).

Definition do_KVDelete (key : string) (now : Time) (s : Store)
  : (unit + error) * Store :=
  (inl tt, mkStore (sessions s) (delete key (kv s)) (freshIDs s)).

(** [Session().Renew(id)]: pushes the deadline of session [id]; for an
    id the server does not know the client returns no entry and no
    error. *)
Definition do_SessionRenew (id : string) (now : Time) (s : Store)
  : (option SessionEntry + error) * Store :=
  match sessions s !! id with
  | Some e =>
      if now <? deadline e then
        let e' := mkSession (TTL e) (Behavior e) (now + TTL e) in
        (inl (Some e'), mkStore (<[id := e']> (sessions s)) (kv s) (freshIDs s))
      else (inl None, s)
  | None => (inl None, s)
  end.

(** *** the adapter *)

Record ConsulLocker := mkLocker {
  lockKey : string;
  lockTimeout : Duration;
  renewTicker : option nat;
  stopChan : Chan;
  ownerID : string;
  logger : Logger
}.

Definition set_renewTicker (t : option nat) (l : ConsulLocker)
  : ConsulLocker :=
  mkLocker (lockKey l) (lockTimeout l) t (stopChan l) (ownerID l) (logger l).

Abbreviation Go := (M ConsulLocker Store Call).

Definition Session_Create t b : Go (string + error) :=
  backend (CSessionCreate t b) (do_SessionCreate t b).
Definition KV_Put p : Go (unit + error) := backend (CKVPut p) (do_KVPut p).
Definition KV_Delete key : Go (unit + error) :=
  backend (CKVDelete key) (do_KVDelete key).
Definition Session_Renew id : Go (option SessionEntry + error) :=
  backend (CSessionRenew id) (do_SessionRenew id).

Definition NewConsulLocker (host : string * option error)
           (opts : list Opt.Option) : ConsulLocker * list (Level * string) :=
  let o := Opt.ApplyOptions host opts in
  let locker :=
    {| lockKey := Opt.lockName o;
       lockTimeout := Opt.lockTimeout o;
       renewTicker := None;
       stopChan := make_chan;
       ownerID := Opt.ownerID o;
       logger := Opt.logger o |} in
  (locker, Logger_write (logger locker) LInfo "ConsulLocker initialized").

Definition Lock : Go (option error) :=
  l <- get_self ;;
  r <- Session_Create (lockTimeout l) SessionBehaviorRelease ;;
  match r with
  | inr err =>
      log (logger l) LError "Failed to create session" ;;;
      ret (Some (Errorf_v "failed to create session" err))
  | inl sessionID =>
      let kv := {| Key := lockKey l;
                   Value := ownerID l;
                   Session := sessionID |} in
      r <- KV_Put kv ;;
      match r with
      | inr err =>
          log (logger l) LError "Failed to acquire lock" ;;;
          ret (Some (Errorf_v "failed to acquire lock" err))
      | inl _ =>
          t <- time_NewTicker (Duration_half (lockTimeout l)) ;;
          put_self (set_renewTicker (Some t) l) ;;;
          go_renewLock [AStr sessionID] ;;;
          log (logger l) LInfo "Lock acquired" ;;;
          ret None
      end
  end.

Definition Unlock : Go (option error) :=
  l <- get_self ;;
  l <- match renewTicker l with
       | Some t =>
           Ticker_Stop t ;;;
           put_self (set_renewTicker None l) ;;;
           log (logger l) LInfo "Stopped renewing lock" ;;;
           ret (set_renewTicker None l)
       | None => ret l
       end ;;
  r <- KV_Delete (lockKey l) ;;
  match r with
  | inr err =>
      log (logger l) LError "Failed to release lock" ;;;
      ret (Some (Errorf_v "failed to release lock" err))
  | inl _ =>
      log (logger l) LInfo "Lock released" ;;;
      ret None
  end.

Definition Renew : Go (option error) :=
  l <- get_self ;;
  r <- Session_Renew (ownerID l) ;;
  match r with
  | inr err =>
      log (logger l) LError "Failed to renew lock" ;;;
      ret (Some (Errorf_v "failed to renew lock" err))
  | inl _ =>
      log (logger l) LInfo "Lock renewed" ;;;
      ret None
  end.

Definition renewLock_after (err : option error) : Go unit :=
  l <- get_self ;;
  match err with
  | Some _ => log (logger l) LError "Failed to renew lock"
  | None => ret tt
  end.

End Consul.

(** ** zookeeper.go *)

Module Zookeeper.

(** *** the part of the zookeeper client the adapter calls *)

(** The flags of [Create] ([zk.FlagEphemeral], [zk.FlagSequence]). *)
Definition FlagEphemeral : Z := 1.
Definition FlagSequence : Z := 2.

(** A znode; [ephemeralOwner] is the session an ephemeral node belongs
    to, [None] for a persistent node. *)
Record Node := mkNode {
  data : string;
  ephemeralOwner : option Z
}.

(** [session] is the session of the adapter's connection. *)
Record Store := mkStore {
  nodes : gmap string Node;
  session : Z
}.

Inductive Call :=
| CCreate (path data : string) (flags : Z)
| CDelete (path : string) (version : Z).

(** [Create]: the node is ephemeral exactly when the flags have the
    [FlagEphemeral] bit.  (Parents and path syntax are not checked, and
    the adapter never asks for a sequence number.) *)
Definition do_Create (path dat : string) (flags : Z)
           (now : Time) (s : Store) : (string + error) * Store :=
  match nodes s !! path with
  | Some _ => (inr zk_ErrNodeExists, s)
  | None =>
      let owner := if Z.testbit flags 0 then Some (session s) else None in
      (inl path, mkStore (<[path := mkNode dat owner]> (nodes s)) (session s))
  end.

Definition do_Delete (path : string) (version : Z)
           (now : Time) (s : Store) : (unit + error) * Store :=
  match nodes s !! path with
  | Some _ => (inl tt, mkStore (delete path (nodes s)) (session s))
  | None => (inr zk_ErrNoNode, s)
  end.

(** What the server does when session [sid] ends: it removes the
    ephemeral nodes of that session and keeps the rest. *)
Definition session_closed (sid : Z) (s : Store) : Store :=
  mkStore (filter (fun p => ephemeralOwner (snd p) <> Some sid) (nodes s))
          (session s).

(** *** the adapter *)

Record ZookeeperLocker := mkLocker {
  lockPath : string;
  lockTimeout : Duration;
  renewTicker : option nat;
  stopChan : Chan;
  ownerID : string;
  logger : Logger
}.

Definition set_renewTicker (t : option nat) (l : ZookeeperLocker)
  : ZookeeperLocker :=
  mkLocker (lockPath l) (lockTimeout l) t (stopChan l) (ownerID l) (logger l).

Definition set_ownerID (o : string) (l : ZookeeperLocker) : ZookeeperLocker :=
  mkLocker (lockPath l) (lockTimeout l) (renewTicker l) (stopChan l) o
           (logger l).

Abbreviation Go := (M ZookeeperLocker Store Call).

Definition Create path dat flags : Go (string + error) :=
  backend (CCreate path dat flags) (do_Create path dat flags).
Definition Delete path version : Go (unit + error) :=
  backend (CDelete path version) (do_Delete path version).

Definition NewZookeeperLocker (host : string * option error)
           (opts : list Opt.Option)
  : ZookeeperLocker * list (Level * string) :=
  let o := Opt.ApplyOptions host opts in
  let locker :=
    {| lockPath := Opt.lockName o;
       lockTimeout := Opt.lockTimeout o;
       renewTicker := None;
       stopChan := make_chan;
       ownerID := Opt.ownerID o;
       logger := Opt.logger o |} in
  (locker, Logger_write (logger locker) LInfo "ZookeeperLocker initialized").

(** [fmt.Sprintf("%s/%s", l.lockPath, l.ownerID)] *)
Definition lockNode_of (l : ZookeeperLocker) : string :=
  lockPath l +:+ "/" +:+ ownerID l.

Definition Lock : Go (option error) :=
  l <- get_self ;;
  let lockNode := lockNode_of l in
  r <- Create lockNode "" 0 ;;
  match r with
  | inr err =>
      if bool_decide (err = zk_ErrNodeExists) then
        log (logger l) LWarn "Lock is already held by another owner" ;;;
        ret (Some (errorString "lock is already held by another owner"))
      else
        log (logger l) LError "Failed to acquire lock" ;;;
        ret (Some (Errorf_v "failed to acquire lock" err))
  | inl _ =>
      t <- time_NewTicker (Duration_half (lockTimeout l)) ;;
      put_self (set_renewTicker (Some t) l) ;;;
      go_renewLock [AStr lockNode] ;;;
      log (logger l) LInfo "Lock acquired" ;;;
      ret None
  end.

Definition Unlock : Go (option error) :=
  l <- get_self ;;
  l <- match renewTicker l with
       | Some t =>
           Ticker_Stop t ;;;
           put_self (set_renewTicker None l) ;;;
           log (logger l) LInfo "Stopped renewing lock" ;;;
           ret (set_renewTicker None l)
       | None => ret l
       end ;;
  let lockNode := lockNode_of l in
  r <- Delete lockNode (-1) ;;
  match r with
  | inr err =>
      log (logger l) LError "Failed to release lock" ;;;
      ret (Some (Errorf_v "failed to release lock" err))
  | inl _ =>
      log (logger l) LInfo "Lock released" ;;;
      put_self (set_ownerID "" l) ;;;
      ret None
  end.

Definition Renew : Go (option error) :=
  l <- get_self ;;
  log (logger l) LInfo "Lock renewed" ;;;
  ret None.

Definition renewLock_after (err : option error) : Go unit :=
  l <- get_self ;;
  match err with
  | Some _ => log (logger l) LError "Failed to renew lock"
  | None => ret tt
  end.

End Zookeeper.

(** ** mongo.go *)

Module Mongo.

(** *** the part of the mongo driver the adapter calls *)

Inductive Val := VStr (s : string) | VTime (t : Time).

#[global] Instance Val_eq_dec : EqDecision Val.
Proof. solve_decision. Defined.

(** A [bson.M] with equality fields (a filter, or the operand of [$set]
    and [$setOnInsert]). *)
Definition Fields := list (string * Val).

(** The update document: the operands of [$setOnInsert] and [$set]. *)
Record Update := mkUpdate {
  setOnInsert : Fields;
  set : Fields
}.

Record UpdateResult := mkResult {
  MatchedCount : Z;
  UpsertedCount : Z
}.

(** The collection [locks]: documents in insertion order.  The adapter
    creates no index, so nothing keeps names unique.
    [rejectsConflicts] tells whether the server refuses an update that
    names one path under both [$set] and [$setOnInsert]. *)
Record Store := mkStore {
  docs : list (gmap string Val);
  rejectsConflicts : bool
}.

Inductive Call :=
| CUpdateOne (filter : Fields) (update : Update) (upsert : bool)
| CDeleteOne (filter : Fields).

Definition matches (filter : Fields) (d : gmap string Val) : bool :=
  forallb (fun p => bool_decide (d !! fst p = Some (snd p))) filter.

Definition apply_fields (fs : Fields) (d : gmap string Val)
  : gmap string Val :=
  fold_left (fun d p => <[fst p := snd p]> d) fs d.

Definition conflicting (u : Update) : bool :=
  existsb (fun p => existsb (fun q => bool_decide (fst p = fst q)) (set u))
          (setOnInsert u).

(** Applies [f] to the first document that satisfies [p]. *)
Fixpoint update_first (p : gmap string Val -> bool)
         (f : gmap string Val -> option (gmap string Val))
         (ds : list (gmap string Val)) : option (list (gmap string Val)) :=
  match ds with
  | [] => None
  | d :: ds' =>
      if p d then
        Some (match f d with Some d' => d' :: ds' | None => ds' end)
      else
        match update_first p f ds' with
        | Some r => Some (d :: r)
        | None => None
        end
  end.

Definition ErrConflict : error :=
  errorString "Updating the path would create a conflict".

Definition do_UpdateOne (filter : Fields) (u : Update) (upsert : bool)
           (now : Time) (s : Store) : (UpdateResult + error) * Store :=
  if rejectsConflicts s && conflicting u then (inr ErrConflict, s)
  else
    match update_first (matches filter)
                       (fun d => Some (apply_fields (set u) d)) (docs s) with
    | Some ds => (inl (mkResult 1 0), mkStore ds (rejectsConflicts s))
    | None =>
        if upsert then
          let d := apply_fields (set u)
                     (apply_fields (setOnInsert u)
                        (apply_fields filter ∅)) in
          (inl (mkResult 0 1), mkStore (docs s ++ [d]) (rejectsConflicts s))
        else (inl (mkResult 0 0), s)
    end.

Definition do_DeleteOne (filter : Fields) (now : Time) (s : Store)
  : (unit + error) * Store :=
  match update_first (matches filter) (fun _ => None) (docs s) with
  | Some ds => (inl tt, mkStore ds (rejectsConflicts s))
  | None => (inl tt, s)
  end.

(** *** the adapter *)

Record MongoLocker := mkLocker {
  lockName : string;
  lockTimeout : Duration;
  renewTicker : option nat;
  stopChan : Chan;
  ownerID : string;
  logger : Logger
}.

Definition set_renewTicker (t : option nat) (l : MongoLocker) : MongoLocker :=
  mkLocker (lockName l) (lockTimeout l) t (stopChan l) (ownerID l) (logger l).

Definition set_ownerID (o : string) (l : MongoLocker) : MongoLocker :=
  mkLocker (lockName l) (lockTimeout l) (renewTicker l) (stopChan l) o
           (logger l).

Abbreviation Go := (M MongoLocker Store Call).

Definition UpdateOne filter u upsert : Go (UpdateResult + error) :=
  backend (CUpdateOne filter u upsert) (do_UpdateOne filter u upsert).
Definition DeleteOne filter : Go (unit + error) :=
  backend (CDeleteOne filter) (do_DeleteOne filter).

Definition NewMongoLocker (host : string * option error)
           (opts : list Opt.Option) : MongoLocker * list (Level * string) :=
  let o := Opt.ApplyOptions host opts in
  let locker :=
    {| lockName := Opt.lockName o;
       lockTimeout := Opt.lockTimeout o;
       renewTicker := None;
       stopChan := make_chan;
       ownerID := Opt.ownerID o;
       logger := Opt.logger o |} in
  (locker, Logger_write (logger locker) LInfo "MongoLocker initialized").

Definition Lock : Go (option error) :=
  l <- get_self ;;
  now <- time_Now ;;
  let expiredAt := Time_Add now (lockTimeout l) in
  let filter := [("name", VStr (lockName l))] in
  let update :=
    {| setOnInsert := [("ownerID", VStr (ownerID l));
                       ("expiredAt", VTime expiredAt)];
       set := [("ownerID", VStr (ownerID l));
               ("expiredAt", VTime expiredAt)] |} in
  r <- UpdateOne filter update true ;;
  match r with
  | inr err =>
      log (logger l) LError "Failed to acquire lock" ;;;
      ret (Some (Errorf_v "failed to acquire lock" err))
  | inl result =>
      if MatchedCount result =? 0 then
        log (logger l) LWarn "Lock is already held by another owner" ;;;
        ret (Some (errorString "lock is already held by another owner"))
      else
        t <- time_NewTicker (Duration_half (lockTimeout l)) ;;
        put_self (set_renewTicker (Some t) l) ;;;
        go_renewLock [] ;;;
        log (logger l) LInfo "Lock acquired" ;;;
        ret None
  end.

Definition Unlock : Go (option error) :=
  l <- get_self ;;
  l <- match renewTicker l with
       | Some t =>
           Ticker_Stop t ;;;
           put_self (set_renewTicker None l) ;;;
           log (logger l) LInfo "Stopped renewing lock" ;;;
           ret (set_renewTicker None l)
       | None => ret l
       end ;;
  r <- DeleteOne [("name", VStr (lockName l))] ;;
  match r with
  | inr err =>
      log (logger l) LError "Failed to release lock" ;;;
      ret (Some (Errorf_v "failed to release lock" err))
  | inl _ =>
      log (logger l) LInfo "Lock released" ;;;
      put_self (set_ownerID "" l) ;;;
      ret None
  end.

Definition Renew : Go (option error) :=
  l <- get_self ;;
  now <- time_Now ;;
  let expiredAt := Time_Add now (lockTimeout l) in
  r <- UpdateOne [("name", VStr (lockName l))]
                 {| setOnInsert := []; set := [("expiredAt", VTime expiredAt)] |}
                 false ;;
  match r with
  | inr err =>
      log (logger l) LError "Failed to renew lock" ;;;
      ret (Some (Errorf_v "failed to renew lock" err))
  | inl _ =>
      log (logger l) LInfo "Lock renewed" ;;;
      ret None
  end.

Definition renewLock_after (err : option error) : Go unit :=
  l <- get_self ;;
  match err with
  | Some _ => log (logger l) LError "Failed to renew lock"
  | None => ret tt
  end.

End Mongo.

(** ** gorm.go *)

Module Gorm.

(** *** the part of gorm and of the SQL server the adapter calls *)

Inductive Dialect := MySQL | Postgres.

(** [type Lock struct]: a row of the table of locks; [Name] is unique. *)
Record LockRecord := mkLock {
  ID : Z;
  Name : string;
  OwnerID : string;
  ExpiredAt : Time;
  CreatedAt : Time;
  UpdatedAt : Time
}.

(** [rows] are kept in the order of their primary key.  Inside a
    transaction a PostgreSQL server that has refused a statement refuses
    every later one until the transaction ends ([txAborted]); a MySQL
    server goes on. *)
Record Store := mkStore {
  dialect : Dialect;
  rows : list LockRecord;
  nextID : Z;
  inTx : bool;
  txAborted : bool
}.

Inductive Call :=
| CBegin
| CCommit
| CRollback
| CCreate (r : LockRecord)
| CFirst (name : string)
| CSave (r : LockRecord)
| CDelete (name : string)
| CUpdateExpiredAt (name : string) (t : Time).

Definition ErrDuplicate (d : Dialect) : error :=
  match d with
  | MySQL => MySQLError 1062 "Duplicate entry"
  | Postgres => PgError "23505" "duplicate key value violates unique constraint"
  end.

Definition ErrTxAborted : error :=
  PgError "25P02" "current transaction is aborted".

Definition is_Postgres (d : Dialect) : bool :=
  match d with Postgres => true | MySQL => false end.

Definition has_name (name : string) (r : LockRecord) : bool :=
  bool_decide (Name r = name).

Definition do_Begin (now : Time) (s : Store) : (unit + error) * Store :=
  (inl tt, mkStore (dialect s) (rows s) (nextID s) true false).

Definition do_Commit (now : Time) (s : Store) : (unit + error) * Store :=
  (inl tt, mkStore (dialect s) (rows s) (nextID s) false false).

(** The end of a transaction that does not commit: the rows are those
    of its beginning. *)
Definition aborted (snapshot : list LockRecord) (s : Store) : Store :=
  mkStore (dialect s) snapshot (nextID s) false false.

(** [INSERT]: the server picks the primary key, gorm stamps
    [CreatedAt] and [UpdatedAt]. *)
Definition do_Create (r : LockRecord) (now : Time) (s : Store)
  : (unit + error) * Store :=
  if txAborted s then (inr ErrTxAborted, s)
  else if existsb (has_name (Name r)) (rows s) then
    (inr (ErrDuplicate (dialect s)),
     mkStore (dialect s) (rows s) (nextID s) (inTx s)
             (inTx s && is_Postgres (dialect s)))
  else
    let row := mkLock (nextID s) (Name r) (OwnerID r) (ExpiredAt r) now now in
    (inl tt, mkStore (dialect s) (rows s ++ [row]) (nextID s + 1)
                     (inTx s) (txAborted s)).

(** [First(&lock, "name = ?", name)] *)
Definition do_First (name : string) (now : Time) (s : Store)
  : (LockRecord + error) * Store :=
  if txAborted s then (inr ErrTxAborted, s)
  else
    match find (has_name name) (rows s) with
    | Some r => (inl r, s)
    | None => (inr gorm_ErrRecordNotFound, s)
    end.

(** [Save(&lock)]: writes every column of the row with the primary key
    of [lock], and stamps [UpdatedAt]. *)
Definition do_Save (r : LockRecord) (now : Time) (s : Store)
  : (unit + error) * Store :=
  if txAborted s then (inr ErrTxAborted, s)
  else
    let upd x :=
      if ID x =? ID r
      then mkLock (ID r) (Name r) (OwnerID r) (ExpiredAt r) (CreatedAt r) now
      else x in
    (inl tt, mkStore (dialect s) (map upd (rows s)) (nextID s)
                     (inTx s) (txAborted s)).

(** [Delete(&Lock{}, "name = ?", name)] *)
Definition do_Delete (name : string) (now : Time) (s : Store)
  : (unit + error) * Store :=
  (inl tt, mkStore (dialect s)
                   (List.filter (fun r => negb (has_name name r)) (rows s))
                   (nextID s) (inTx s) (txAborted s)).

(** [Model(&Lock{}).Where("name = ?", name).Update("expired_at", t)] *)
Definition do_UpdateExpiredAt (name : string) (t : Time)
           (now : Time) (s : Store) : (unit + error) * Store :=
  let upd x :=
    if has_name name x
    then mkLock (ID x) (Name x) (OwnerID x) t (CreatedAt x) now
    else x in
  (inl tt, mkStore (dialect s) (map upd (rows s)) (nextID s)
                   (inTx s) (txAborted s)).

(** *** the adapter *)

Record GORMLocker := mkLocker {
  lockName : string;
  lockTimeout : Duration;
  renewTicker : option nat;
  stopChan : Chan;
  ownerID : string;
  logger : Logger
}.

Definition set_renewTicker (t : option nat) (l : GORMLocker) : GORMLocker :=
  mkLocker (lockName l) (lockTimeout l) t (stopChan l) (ownerID l) (logger l).

Abbreviation Go := (M GORMLocker Store Call).

Definition Create r : Go (unit + error) := backend (CCreate r) (do_Create r).
Definition First name : Go (LockRecord + error) :=
  backend (CFirst name) (do_First name).
Definition Save r : Go (unit + error) := backend (CSave r) (do_Save r).
Definition Delete name : Go (unit + error) :=
  backend (CDelete name) (do_Delete name).
Definition UpdateExpiredAt name t : Go (unit + error) :=
  backend (CUpdateExpiredAt name t) (do_UpdateExpiredAt name t).
Definition Begin : Go (unit + error) := backend CBegin do_Begin.
Definition Commit : Go (unit + error) := backend CCommit do_Commit.

(** [tx.Rollback()]: gorm drops its result; whether or not the
    statement reaches the server, the transaction ends undone. *)
Definition Rollback (snapshot : list LockRecord) : Go unit := fun st =>
  match backend CRollback (fun _ s => (inl tt, s)) st with
  | (_, st') => (Ret tt, set_store (aborted snapshot (store st')) st')
  end.

(** [db.Transaction(fc)]: begin, run [fc], commit when it returns nil;
    roll back when it returns an error, when it panics and when the
    commit fails. *)
Definition Transaction (fc : Go (option error)) : Go (option error) :=
  fun st =>
    let snapshot := rows (store st) in
    match Begin st with
    | (Ret (inr err), st1) => (Ret (Some err), st1)
    | (Panic msg, st1) => (Panic msg, st1)
    | (Ret (inl _), st1) =>
        match fc st1 with
        | (Ret None, st2) =>
            match Commit st2 with
            | (Ret (inl _), st3) => (Ret None, st3)
            | (Ret (inr err), st3) =>
                (Ret (Some err), snd (Rollback snapshot st3))
            | (Panic msg, st3) => (Panic msg, st3)
            end
        | (Ret (Some err), st2) =>
            (Ret (Some err), snd (Rollback snapshot st2))
        | (Panic msg, st2) => (Panic msg, snd (Rollback snapshot st2))
        end
    end.

Definition isDuplicateEntry (err : error) : bool :=
  match err with
  | MySQLError n _ => n =? 1062
  | PgError c _ => bool_decide (c = "23505")
  | _ => false
  end.

(** [db.AutoMigrate] is the caller's schema; the constructor is taken
    on a migrated table. *)
Definition NewGORMLocker (host : string * option error)
           (opts : list Opt.Option) : GORMLocker * list (Level * string) :=
  let o := Opt.ApplyOptions host opts in
  let locker :=
    {| lockName := Opt.lockName o;
       lockTimeout := Opt.lockTimeout o;
       renewTicker := None;
       stopChan := make_chan;
       ownerID := Opt.ownerID o;
       logger := Opt.logger o |} in
  (locker, Logger_write (logger locker) LInfo "GORMLocker initialized").

(** The part of the transaction of [Lock] that runs when [Create] has
    failed with [err]: [None] lets the transaction go on to the ticker. *)
Definition Lock_on_create_error (l : GORMLocker) (now expiredAt : Time)
           (err : error) : Go (option error) :=
  if negb (isDuplicateEntry err) then
    log (logger l) LError "failed to create lock" ;;;
    ret (Some err)
  else
    r <- First (lockName l) ;;
    match r with
    | inr err =>
        log (logger l) LError "failed to fetch existing lock" ;;;
        ret (Some err)
    | inl lock =>
        if negb (Time_Before (ExpiredAt lock) now) then
          log (logger l) LWarn "lock is already held by another owner" ;;;
          ret (Some (Errorf_s "lock is already held by " (OwnerID lock)))
        else
          let lock := mkLock (ID lock) (Name lock) (ownerID l) expiredAt
                             (CreatedAt lock) (UpdatedAt lock) in
          r <- Save lock ;;
          match r with
          | inr err =>
              log (logger l) LError "failed to update expired lock" ;;;
              ret (Some err)
          | inl _ =>
              log (logger l) LInfo "Lock expired, updated owner" ;;;
              ret None
          end
    end.

Definition Lock : Go (option error) :=
  l <- get_self ;;
  now <- time_Now ;;
  let expiredAt := Time_Add now (lockTimeout l) in
  Transaction (
    r <- Create (mkLock 0 (lockName l) (ownerID l) expiredAt 0 0) ;;
    failed <- match r with
              | inr err => Lock_on_create_error l now expiredAt err
              | inl _ => ret None
              end ;;
    match failed with
    | Some err => ret (Some err)
    | None =>
        t <- time_NewTicker (Duration_half (lockTimeout l)) ;;
        put_self (set_renewTicker (Some t) l) ;;;
        go_renewLock [] ;;;
        log (logger l) LInfo "Lock acquired" ;;;
        ret None
    end).

Definition Unlock : Go (option error) :=
  l <- get_self ;;
  l <- match renewTicker l with
       | Some t =>
           Ticker_Stop t ;;;
           put_self (set_renewTicker None l) ;;;
           log (logger l) LInfo "Stopped renewing lock" ;;;
           ret (set_renewTicker None l)
       | None => ret l
       end ;;
  r <- Delete (lockName l) ;;
  match r with
  | inr err =>
      log (logger l) LError "failed to delete lock" ;;;
      ret (Some err)
  | inl _ =>
      log (logger l) LInfo "Lock released" ;;;
      ret None
  end.

Definition Renew : Go (option error) :=
  l <- get_self ;;
  now <- time_Now ;;
  let expiredAt := Time_Add now (lockTimeout l) in
  r <- UpdateExpiredAt (lockName l) expiredAt ;;
  match r with
  | inr err =>
      log (logger l) LError "failed to renew lock" ;;;
      ret (Some err)
  | inl _ =>
      log (logger l) LInfo "Lock renewed" ;;;
      ret None
  end.

Definition renewLock_after (err : option error) : Go unit :=
  l <- get_self ;;
  match err with
  | Some _ => log (logger l) LError "failed to renew lock"
  | None => ret tt
  end.

End Gorm.

(** ** noop.go *)

Module Noop.

(** The no-op locker has no backend: its state is [unit] and it makes no
    call. *)
Inductive Call := .

Record NoopLocker := mkLocker {
  lockTimeout : Duration;
  renewTicker : option nat;
  stopChan : Chan;
  ownerID : string;
  logger : Logger
}.

Definition set_renewTicker (t : option nat) (l : NoopLocker) : NoopLocker :=
  mkLocker (lockTimeout l) t (stopChan l) (ownerID l) (logger l).

Definition set_ownerID (o : string) (l : NoopLocker) : NoopLocker :=
  mkLocker (lockTimeout l) (renewTicker l) (stopChan l) o (logger l).

Abbreviation Go := (M NoopLocker unit Call).

Definition NewNoopLocker (host : string * option error)
           (opts : list Opt.Option) : NoopLocker * list (Level * string) :=
  let o := Opt.ApplyOptions host opts in
  ({| lockTimeout := Opt.lockTimeout o;
      renewTicker := None;
      stopChan := make_chan;
      ownerID := Opt.ownerID o;
      logger := Opt.logger o |}, []).

Definition Lock : Go (option error) :=
  l <- get_self ;;
  t <- time_NewTicker (Duration_half (lockTimeout l)) ;;
  put_self (set_renewTicker (Some t) l) ;;;
  go_renewLock [] ;;;
  log (logger l) LInfo "Lock acquired" ;;;
  ret None.

Definition Unlock : Go (option error) :=
  l <- get_self ;;
  l <- match renewTicker l with
       | Some t =>
           Ticker_Stop t ;;;
           put_self (set_renewTicker None l) ;;;
           ret (set_renewTicker None l)
       | None => ret l
       end ;;
  log (logger l) LInfo "Lock released" ;;;
  put_self (set_ownerID "" l) ;;;
  ret None.

Definition Renew : Go (option error) :=
  l <- get_self ;;
  log (logger l) LInfo "Lock renewed" ;;;
  ret None.

Definition renewLock_after (err : option error) : Go unit :=
  l <- get_self ;;
  match err with
  | Some _ => log (logger l) LError "Failed to renew lock"
  | None => ret tt
  end.

End Noop.

(** ** the Locker interface and the process around it *)

(** [type Locker interface]: the three methods, and with them what every
    adapter has besides: its constructor, the body of the tick case of its
    [renewLock], the two fields [renewLock] reads, and the configuration
    the constructor copied from the options. *)
Record Locker (L S C : Type) := mkAdapter {
  a_New : string * option error -> list Opt.Option -> L * list (Level * string);
  a_Lock : M L S C (option error);
  a_Unlock : M L S C (option error);
  a_Renew : M L S C (option error);
  a_after : option error -> M L S C unit;
  a_renewTicker : L -> option nat;
  a_stopChan : L -> Chan;
  a_config : L -> Opt.Options
}.
Arguments a_New {L S C} _.
Arguments a_Lock {L S C} _.
Arguments a_Unlock {L S C} _.
Arguments a_Renew {L S C} _.
Arguments a_after {L S C} _.
Arguments a_renewTicker {L S C} _.
Arguments a_stopChan {L S C} _.
Arguments a_config {L S C} _.

(** Each adapter declares that it implements [Locker]. *)
Definition redis : Locker Redis.RedisLocker _ Redis.Call :=
  {| a_New := Redis.NewRedisLocker;
     a_Lock := Redis.Lock; a_Unlock := Redis.Unlock; a_Renew := Redis.Renew;
     a_after := Redis.renewLock_after;
     a_renewTicker := Redis.renewTicker; a_stopChan := Redis.stopChan;
     a_config := fun l => Opt.mkOptions (Redis.lockName l) (Redis.lockTimeout l)
                                        (Redis.ownerID l) (Redis.logger l) |}.

Definition memcached : Locker Memcached.MemcachedLocker _ Memcached.Call :=
  {| a_New := Memcached.NewMemcachedLocker;
     a_Lock := Memcached.Lock; a_Unlock := Memcached.Unlock;
     a_Renew := Memcached.Renew;
     a_after := Memcached.renewLock_after;
     a_renewTicker := Memcached.renewTicker; a_stopChan := Memcached.stopChan;
     a_config := fun l => Opt.mkOptions (Memcached.lockKey l)
                            (Memcached.lockTimeout l) (Memcached.ownerID l)
                            (Memcached.logger l) |}.

Definition etcd : Locker Etcd.EtcdLocker Etcd.Store Etcd.Call :=
  {| a_New := Etcd.NewEtcdLocker;
     a_Lock := Etcd.Lock; a_Unlock := Etcd.Unlock; a_Renew := Etcd.Renew;
     a_after := Etcd.renewLock_after;
     a_renewTicker := Etcd.renewTicker; a_stopChan := Etcd.stopChan;
     a_config := fun l => Opt.mkOptions (Etcd.lockKey l) (Etcd.lockTimeout l)
                                        (Etcd.ownerID l) (Etcd.logger l) |}.

Definition consul : Locker Consul.ConsulLocker Consul.Store Consul.Call :=
  {| a_New := Consul.NewConsulLocker;
     a_Lock := Consul.Lock; a_Unlock := Consul.Unlock; a_Renew := Consul.Renew;
     a_after := Consul.renewLock_after;
     a_renewTicker := Consul.renewTicker; a_stopChan := Consul.stopChan;
     a_config := fun l => Opt.mkOptions (Consul.lockKey l) (Consul.lockTimeout l)
                                        (Consul.ownerID l) (Consul.logger l) |}.

Definition zookeeper
  : Locker Zookeeper.ZookeeperLocker Zookeeper.Store Zookeeper.Call :=
  {| a_New := Zookeeper.NewZookeeperLocker;
     a_Lock := Zookeeper.Lock; a_Unlock := Zookeeper.Unlock;
     a_Renew := Zookeeper.Renew;
     a_after := Zookeeper.renewLock_after;
     a_renewTicker := Zookeeper.renewTicker; a_stopChan := Zookeeper.stopChan;
     a_config := fun l => Opt.mkOptions (Zookeeper.lockPath l)
                            (Zookeeper.lockTimeout l) (Zookeeper.ownerID l)
                            (Zookeeper.logger l) |}.

Definition mongo : Locker Mongo.MongoLocker Mongo.Store Mongo.Call :=
  {| a_New := Mongo.NewMongoLocker;
     a_Lock := Mongo.Lock; a_Unlock := Mongo.Unlock; a_Renew := Mongo.Renew;
     a_after := Mongo.renewLock_after;
     a_renewTicker := Mongo.renewTicker; a_stopChan := Mongo.stopChan;
     a_config := fun l => Opt.mkOptions (Mongo.lockName l) (Mongo.lockTimeout l)
                                        (Mongo.ownerID l) (Mongo.logger l) |}.

Definition gorm : Locker Gorm.GORMLocker Gorm.Store Gorm.Call :=
  {| a_New := Gorm.NewGORMLocker;
     a_Lock := Gorm.Lock; a_Unlock := Gorm.Unlock; a_Renew := Gorm.Renew;
     a_after := Gorm.renewLock_after;
     a_renewTicker := Gorm.renewTicker; a_stopChan := Gorm.stopChan;
     a_config := fun l => Opt.mkOptions (Gorm.lockName l) (Gorm.lockTimeout l)
                                        (Gorm.ownerID l) (Gorm.logger l) |}.

(** The no-op locker keeps no lock name: its view has the empty string
    there. *)
Definition noop : Locker Noop.NoopLocker unit Noop.Call :=
  {| a_New := Noop.NewNoopLocker;
     a_Lock := Noop.Lock; a_Unlock := Noop.Unlock; a_Renew := Noop.Renew;
     a_after := Noop.renewLock_after;
     a_renewTicker := Noop.renewTicker; a_stopChan := Noop.stopChan;
     a_config := fun l => Opt.mkOptions "" (Noop.lockTimeout l)
                                        (Noop.ownerID l) (Noop.logger l) |}.

Section Process.
Context {L S C : Type} (A : Locker L S C).

Definition method (op : OpName) : M L S C (option error) :=
  match op with
  | OpLock => a_Lock A
  | OpUnlock => a_Unlock A
  | OpRenew => a_Renew A
  end.

Definition is_panic {X} (r : Result X) : bool :=
  match r with Panic _ => true | Ret _ => false end.

Definition set_trace (tr : list (Event C)) (c : bool) (st : State L S C)
  : State L S C :=
  mkState (self st) (clock st) (store st) (faults st) (tickers st)
          (goroutines st) c tr.

Definition set_clock (t : Time) (st : State L S C) : State L S C :=
  mkState (self st) t (store st) (faults st) (tickers st)
          (goroutines st) (crashed st) (trace st).

Definition set_tickers (tks : list Ticker) (st : State L S C)
  : State L S C :=
  mkState (self st) (clock st) (store st) (faults st) tks
          (goroutines st) (crashed st) (trace st).

Definition set_goroutines (gs : list GState) (st : State L S C)
  : State L S C :=
  mkState (self st) (clock st) (store st) (faults st) (tickers st)
          gs (crashed st) (trace st).

(** One call of a method by thread [who].  The method holds [l.mu] from
    entry to return, so the call is one step.  A panic that nobody
    recovers ends the process. *)
Definition call (who : Thread) (op : OpName) (st : State L S C)
  : Result (option error) * State L S C :=
  let st1 := set_trace (trace st ++ [EvBegin who op]) (crashed st) st in
  let '(r, st2) := method op st1 in
  (r, set_trace (trace st2 ++ [EvEnd who op r])
                (crashed st2 || is_panic r) st2).

(** What can happen next in the process. *)
Inductive Label :=
| LCall (op : OpName)       (* the owner of the locker calls a method *)
| LAdvance (dt : Duration)  (* time passes *)
| LFire (t : nat)           (* the runtime sends the due tick of ticker [t] *)
| LEnter (g : nat)          (* goroutine [g] enters its [select] *)
| LRecvTick (g : nat)       (* ... proceeds with [<-l.renewTicker.C] *)
| LRecvStop (g : nat)       (* ... proceeds with [<-l.stopChan] *)
| LRenew (g : nat).         (* ... runs the tick case and loops *)

Definition fire (tk : Ticker) : Ticker :=
  {| tk_interval := tk_interval tk; tk_running := tk_running tk;
     tk_next := tk_next tk + tk_interval tk; tk_C := true |}.

Definition take_tick (tk : Ticker) : Ticker :=
  {| tk_interval := tk_interval tk; tk_running := tk_running tk;
     tk_next := tk_next tk; tk_C := false |}.

(** [step lb st] is the state after [lb], or [None] when [lb] cannot
    happen in [st].  On entering the [select] the goroutine evaluates
    [l.stopChan] and [l.renewTicker.C]; with [l.renewTicker] nil the
    second is a nil dereference. *)
Definition step (lb : Label) (st : State L S C) : option (State L S C) :=
  if crashed st then None
  else
    match lb with
    | LCall op => Some (snd (call Caller op st))
    | LAdvance dt =>
        if 0 <=? dt then Some (set_clock (clock st + dt) st) else None
    | LFire t =>
        match tickers st !! t with
        | Some tk =>
            if tk_running tk && (tk_next tk <=? clock st)
            then Some (set_tickers (<[t := fire tk]> (tickers st)) st)
            else None
        | None => None
        end
    | LEnter g =>
        match goroutines st !! g with
        | Some GLoop =>
            match a_renewTicker A (self st) with
            | Some t =>
                Some (set_goroutines (<[g := GSelect t]> (goroutines st)) st)
            | None =>
                Some (set_trace
                        (trace st ++
                           [EvPanic (Goroutine g)
                              "invalid memory address or nil pointer dereference"])
                        true st)
            end
        | _ => None
        end
    | LRecvTick g =>
        match goroutines st !! g with
        | Some (GSelect t) =>
            match tickers st !! t with
            | Some tk =>
                if tk_C tk
                then Some (set_goroutines (<[g := GTick]> (goroutines st))
                             (set_tickers (<[t := take_tick tk]> (tickers st)) st))
                else None
            | None => None
            end
        | _ => None
        end
    | LRecvStop g =>
        match goroutines st !! g with
        | Some (GSelect _) =>
            if Chan_ready (a_stopChan A (self st))
            then Some (set_goroutines (<[g := GDone]> (goroutines st)) st)
            else None
        | _ => None
        end
    | LRenew g =>
        match goroutines st !! g with
        | Some GTick =>
            match call (Goroutine g) OpRenew st with
            | (Ret err, st1) =>
                let st2 := snd (a_after A err st1) in
                Some (set_goroutines (<[g := GLoop]> (goroutines st2)) st2)
            | (Panic _, st1) => Some st1
            end
        | _ => None
        end
    end.

Fixpoint run (sched : list Label) (st : State L S C)
  : option (State L S C) :=
  match sched with
  | [] => Some st
  | lb :: rest =>
      match step lb st with
      | Some st' => run rest st'
      | None => None
      end
  end.

End Process.

(** The process right after the constructor: the locker, no ticker, no
    goroutine, and in the trace what the constructor logged. *)
Definition start {L S C : Type} (made : L * list (Level * string))
           (now : Time) (s : S) (fs : list (option error)) : State L S C :=
  mkState (fst made) now s fs [] [] false
          (map (fun p => EvLog (fst p) (snd p)) (snd made)).

(** ** what the statements below speak about *)

Section Observations.
Context {L S C : Type} (A : Locker L S C).

(** The events a computation added to the trace of [st]. *)
Definition appended (st st' : State L S C) : list (Event C) :=
  drop (length (trace st)) (trace st').

(** The backend calls among the events [es], in order. *)
Fixpoint calls_of (es : list (Event C)) : list C :=
  match es with
  | [] => []
  | EvCall c :: es' => c :: calls_of es'
  | _ :: es' => calls_of es'
  end.

(** The renewal scheduler was started between [st] and [st']: a fresh
    running ticker of interval [d] is in [l.renewTicker], and one more
    goroutine stands at the head of [renewLock]. *)
Definition scheduler_started (d : Duration) (st st' : State L S C) : Prop :=
  a_renewTicker A (self st') = Some (length (tickers st))
  /\ tickers st' =
       tickers st ++ [{| tk_interval := d; tk_running := true;
                         tk_next := clock st + d; tk_C := false |}]
  /\ goroutines st' = goroutines st ++ [GLoop]
  /\ exists es, trace st' = trace st ++ es
              /\ In (EvNewTicker (length (tickers st)) d) es.

(** Nothing of the scheduler was touched between [st] and [st']. *)
Definition scheduler_untouched (st st' : State L S C) : Prop :=
  a_renewTicker A (self st') = a_renewTicker A (self st)
  /\ tickers st' = tickers st
  /\ goroutines st' = goroutines st.

Definition is_chan_event (e : Event C) : bool :=
  match e with
  | EvChanClose | EvChanSend => true
  | _ => false
  end.

(** In [es] no ticker is stopped after a backend call. *)
Fixpoint stop_before_calls (called : bool) (es : list (Event C)) : bool :=
  match es with
  | [] => true
  | EvCall _ :: es' => stop_before_calls true es'
  | EvTickerStop _ :: es' => negb called && stop_before_calls called es'
  | _ :: es' => stop_before_calls called es'
  end.

(** [es] has a backend call made by a [Renew] that a goroutine started,
    after the caller has entered [Unlock]. *)
Fixpoint late_renewal (released in_renew : bool) (es : list (Event C))
  : bool :=
  match es with
  | [] => false
  | EvBegin Caller OpUnlock :: es' => late_renewal true in_renew es'
  | EvBegin (Goroutine _) OpRenew :: es' => late_renewal released true es'
  | EvEnd (Goroutine _) OpRenew _ :: es' => late_renewal released false es'
  | EvCall _ :: es' => (released && in_renew) || late_renewal released in_renew es'
  | _ :: es' => late_renewal released in_renew es'
  end.

(** The first [n] backend calls reach the backend. *)
Definition calls_arrive (n : nat) (st : State L S C) : bool :=
  forallb (fun f => bool_decide (f = None)) (take n (faults st)).

(** The configuration the constructor copied is where it was, but for
    the owner, which is [owner'] now. *)
Definition config_kept (owner' : string) (st st' : State L S C) : Prop :=
  a_config A (self st') =
    Opt.mkOptions (Opt.lockName (a_config A (self st)))
                  (Opt.lockTimeout (a_config A (self st)))
                  owner'
                  (Opt.logger (a_config A (self st))).

(** What a computation leaves alone as far as the stop channel goes:
    the channel itself, the goroutines already there (new ones start at
    the loop head), and a trace without close or send. *)
Definition stop_channel_kept (st st' : State L S C) : Prop :=
  a_stopChan A (self st') = a_stopChan A (self st)
  /\ (exists n, goroutines st' = goroutines st ++ repeat GLoop n)
  /\ exists es, trace st' = trace st ++ es
              /\ forallb (fun e => negb (is_chan_event e)) es = true.

(** The stop channel is as [make] left it, no goroutine has returned,
    and nothing in the trace is a close or a send. *)
Definition unsignalled (st : State L S C) : Prop :=
  a_stopChan A (self st) = make_chan
  /\ Forall (fun g => g <> GDone) (goroutines st)
  /\ forallb (fun e => negb (is_chan_event e)) (trace st) = true.

(** No method touches the stop channel, [Unlock] leaves the goroutines
    where they are, and in no run of the process does a goroutine get to
    proceed with [<-l.stopChan]. *)
Definition never_signalled : Prop :=
  (forall op st, stop_channel_kept st (snd (method A op st)))
  /\ (forall st, goroutines (snd (a_Unlock A st)) = goroutines st)
  /\ (forall host opts now s fs sched st' g,
        run A sched (start (a_New A host opts) now s fs) = Some st' ->
        unsignalled st' /\ step A (LRecvStop g) st' = None).

(** The owner after [op] has returned [r]: an adapter that clears it
    does so in an [Unlock] that returns nil. *)
Definition owner_after (clearing : bool) (op : OpName)
           (r : Result (option error)) (owner : string) : string :=
  match op, r with
  | OpUnlock, Ret None => if clearing then "" else owner
  | _, _ => owner
  end.

(** The constructor copies the options, and the three methods keep the
    name, the timeout and the logger; the owner is kept too, up to
    [owner_after]. *)
Definition config_frame (clearing : bool) : Prop :=
  (forall host opts,
      a_config A (fst (a_New A host opts)) = Opt.ApplyOptions host opts)
  /\ (forall op st,
        config_kept
          (owner_after clearing op (fst (method A op st))
                       (Opt.ownerID (a_config A (self st))))
          st (snd (method A op st))).

(** A [Lock] that returns nil has started the scheduler with a tick
    every half timeout, unless [excuse] holds of the state it ran in,
    in which case it may have left the scheduler alone. *)
Definition lock_starts_scheduler (excuse : State L S C -> Prop) : Prop :=
  forall st st',
    a_Lock A st = (Ret None, st') ->
    scheduler_started
      (Duration_half (Opt.lockTimeout (a_config A (self st)))) st st'
    \/ (excuse st /\ scheduler_untouched st st').

End Observations.

(** [Unlock] stops the ticker it finds in [l.renewTicker] before its first
    backend call. *)
Definition stops_before_release {L S C : Type} (A : Locker L S C) : Prop :=
  forall st,
    exists es,
      trace (snd (a_Unlock A st)) = trace st ++ es
      /\ stop_before_calls false es = true
      /\ forall t, a_renewTicker A (self st) = Some t ->
                   In (EvTickerStop t) es.

(** A document of the collection of locks. *)
Definition Mongo_record (name owner : string) (expiredAt : Time)
  : gmap string Mongo.Val :=
  Mongo.apply_fields
    [("name", Mongo.VStr name); ("ownerID", Mongo.VStr owner);
     ("expiredAt", Mongo.VTime expiredAt)] ∅.

(** The key of the lock holds the owner id of this very locker. *)
Definition Redis_held_by_self
           (st : State Redis.RedisLocker (gmap string Redis.Entry) Redis.Call)
  : Prop :=
  exists e,
    Redis.find (clock st) (store st) (Redis.lockName (self st)) = Some e
    /\ Redis.value e = Redis.ownerID (self st).

(** ** weakest preconditions *)

Section WPDef.
Context {L S C : Type}.

(** [wp m Q st]: run from [st], [m] ends with a result and a state that
    satisfy [Q]. *)
Definition wp {X} (m : M L S C X)
           (Q : Result X -> State L S C -> Prop) (st : State L S C) : Prop :=
  Q (fst (m st)) (snd (m st)).

End WPDef.

(** ** the states and schedules the examples run *)

Definition c10_schedule : list Label :=
  [LCall OpLock; LEnter 0; LAdvance (5 * Second); LFire 0; LCall OpUnlock].

Definition c10_start
  : State Redis.RedisLocker (gmap string Redis.Entry) Redis.Call :=
  start (a_New redis ("host-1", None) []) 0 ∅ [].

(** A Mongo locker built with the defaults on host "host-1", an empty
    collection, the clock at 0. *)
Definition c8_start : State Mongo.MongoLocker Mongo.Store Mongo.Call :=
  start (a_New mongo ("host-1", None) []) 0 (Mongo.mkStore [] false) [].

(** A Redis locker built with the defaults on host "host-1", the clock at
    0, and the key of the lock holding "host-1" for ten more seconds: what
    a process finds that starts again on its host before the lock of its
    previous run has expired, or a second locker of the same process. *)
Definition c5_start
  : State Redis.RedisLocker (gmap string Redis.Entry) Redis.Call :=
  start (a_New redis ("host-1", None) []) 0
        {[ "onex-distributed-lock" := Redis.mkEntry "host-1" (Some (10 * Second)) ]}
        [].

(** A GORM locker built with the defaults on host "host-1", an empty
    table on a MySQL server, the clock at 0. *)
Definition c5_gorm_start : State Gorm.GORMLocker Gorm.Store Gorm.Call :=
  start (a_New gorm ("host-1", None) []) 0
        (Gorm.mkStore Gorm.MySQL [] 1 false false) [].

(** A Memcached locker built with the defaults on host "host-1", the
    clock at 0, and the key of the lock holding "host-1" for ten more
    seconds. *)
Definition c3_start
  : State Memcached.MemcachedLocker (gmap string Memcached.Entry)
          Memcached.Call :=
  start (a_New memcached ("host-1", None) []) 0
        {[ "onex-distributed-lock" :=
             Memcached.mkEntry "host-1" (Some (10 * Second)) ]}
        [].

(** The GORM adapter on a MySQL server that answers every call, outside
    any transaction, with a timeout that makes a ticker. *)
Definition gorm_ready (st : State Gorm.GORMLocker Gorm.Store Gorm.Call)
  : Prop :=
  faults st = []
  /\ Gorm.dialect (store st) = Gorm.MySQL
  /\ Gorm.inTx (store st) = false
  /\ Gorm.txAborted (store st) = false
  /\ 0 < Duration_half (Gorm.lockTimeout (self st)).

(** A Mongo locker built with the defaults on host "host-A", the clock at
    1s, and in the collection the record of "host-B", which expires at
    6s.  The server takes the update as the adapter sends it. *)
Definition c1_held : State Mongo.MongoLocker Mongo.Store Mongo.Call :=
  start (a_New mongo ("host-A", None) []) (1 * Second)
        (Mongo.mkStore
           [Mongo_record "onex-distributed-lock" "host-B" (6 * Second)] false)
        [].

(** The same locker on an empty collection. *)
Definition c1_free : State Mongo.MongoLocker Mongo.Store Mongo.Call :=
  start (a_New mongo ("host-A", None) []) (1 * Second)
        (Mongo.mkStore [] false) [].

(** The two again, on a server that refuses an update naming one path
    under both [$set] and [$setOnInsert]. *)
Definition c1_held_strict : State Mongo.MongoLocker Mongo.Store Mongo.Call :=
  start (a_New mongo ("host-A", None) []) (1 * Second)
        (Mongo.mkStore
           [Mongo_record "onex-distributed-lock" "host-B" (6 * Second)] true)
        [].

Definition c1_free_strict : State Mongo.MongoLocker Mongo.Store Mongo.Call :=
  start (a_New mongo ("host-A", None) []) (1 * Second)
        (Mongo.mkStore [] true) [].

(** A GORM locker built with the defaults on host "host-A", the clock at
    20s, and in the table of a PostgreSQL server the row of "host-B",
    which expired at 6s. *)
Definition c1_gorm_postgres : State Gorm.GORMLocker Gorm.Store Gorm.Call :=
  start (a_New gorm ("host-A", None) []) (20 * Second)
        (Gorm.mkStore Gorm.Postgres
           [Gorm.mkLock 1 "onex-distributed-lock" "host-B" (6 * Second) 0 0]
           2 false false)
        [].

(** An etcd locker built with the defaults on host "host-A", the clock at
    1s; the key of the lock holds "host-B" under lease 1, which lasts
    until 10s. *)
Definition c2_start : State Etcd.EtcdLocker Etcd.Store Etcd.Call :=
  start (a_New etcd ("host-A", None) []) (1 * Second)
        (Etcd.mkStore {[ 1 := Etcd.mkLease 10 (10 * Second) ]}
                      {[ "onex-distributed-lock" := ("host-B", 1) ]}
                      2)
        [].

(** A consul locker built with the defaults on host "host-1", the clock
    at 0, an empty server whose next session id is "5f2c-session". *)
Definition c6_start : State Consul.ConsulLocker Consul.Store Consul.Call :=
  start (a_New consul ("host-1", None) []) 0
        (Consul.mkStore ∅ ∅ ["5f2c-session"]) [].

Definition c6_schedule : list Label :=
  [LCall OpLock; LAdvance (5 * Second); LCall OpRenew].

(** A zookeeper locker built with the defaults on host "host-1", the
    clock at 0, no node, the connection in session 7. *)
Definition c7_start
  : State Zookeeper.ZookeeperLocker Zookeeper.Store Zookeeper.Call :=
  start (a_New zookeeper ("host-1", None) []) 0 (Zookeeper.mkStore ∅ 7) [].

(** The locker takes the lock; its goroutine enters the [select]; five
    seconds later the ticker ticks and the goroutine takes the tick; the
    caller runs [Unlock] before the goroutine gets to [l.Renew] (which
    waits for [l.mu]); then the goroutine runs the tick case. *)
Definition c4_schedule : list Label :=
  [LCall OpLock; LEnter 0; LAdvance (5 * Second); LFire 0; LRecvTick 0;
   LCall OpUnlock; LRenew 0].

(** The Redis locker of [c10_start] after its [Lock]. *)
Definition c4_locked
  : State Redis.RedisLocker (gmap string Redis.Entry) Redis.Call :=
  snd (Redis.Lock c10_start).

(** * Proofs *)

(** ** the rules of the weakest precondition *)

Section WP.
Context {L S C : Type}.
Implicit Types st : State L S C.

Lemma wp_ret {X} (x : X) Q st : Q (Ret x) st -> wp (ret x) Q st.
Proof. exact (fun H => H). Qed.

Lemma wp_bind {X Y} (m : M L S C X) (k : X -> M L S C Y) Q st :
  wp m (fun r st' =>
          match r with
          | Ret x => wp (k x) Q st'
          | Panic msg => Q (Panic msg) st'
          end) st ->
  wp (bind m k) Q st.
Proof.
  unfold wp, bind. destruct (m st) as [[x|msg] st']; simpl; auto.
Qed.

Lemma wp_get_self Q st : Q (Ret (self st)) st -> wp get_self Q st.
Proof. exact (fun H => H). Qed.

Lemma wp_time_Now Q st : Q (Ret (clock st)) st -> wp time_Now Q st.
Proof. exact (fun H => H). Qed.

Lemma wp_put_self l Q st :
  Q (Ret tt) (mkState l (clock st) (store st) (faults st) (tickers st)
                      (goroutines st) (crashed st) (trace st)) ->
  wp (put_self l) Q st.
Proof. exact (fun H => H). Qed.

Lemma wp_log lg lv msg Q st :
  Q (Ret tt) (mkState (self st) (clock st) (store st) (faults st)
                      (tickers st) (goroutines st) (crashed st)
                      (trace st ++ map (fun p => EvLog (fst p) (snd p))
                                       (Logger_write lg lv msg))) ->
  wp (log lg lv msg) Q st.
Proof. exact (fun H => H). Qed.

(** A call to the store client: whatever comes back. *)
Lemma wp_backend {X} (c : C) (f : Time -> S -> (X + error) * S) Q st :
  (forall r s',
      answer f st r s' ->
      Q (Ret r) (mkState (self st) (clock st) s' (tl (faults st))
                         (tickers st) (goroutines st) (crashed st)
                         (trace st ++ [EvCall c]))) ->
  wp (backend c f) Q st.
Proof.
  intros H. unfold wp, backend.
  destruct (faults st) as [|[e|] fs] eqn:Hfs; simpl.
  - destruct (f (clock st) (store st)) as [r s'] eqn:Hf. apply H.
    right. rewrite Hfs. split; [discriminate | congruence].
  - apply H. left. exists e. rewrite Hfs. auto.
  - destruct (f (clock st) (store st)) as [r s'] eqn:Hf. apply H.
    right. rewrite Hfs. split; [discriminate | congruence].
Qed.

Lemma wp_time_NewTicker d Q st :
  (d <= 0 -> Q (Panic "non-positive interval for NewTicker") st) ->
  (0 < d ->
   Q (Ret (length (tickers st)))
     (mkState (self st) (clock st) (store st) (faults st)
              (tickers st ++ [mkTicker d true (clock st + d) false])
              (goroutines st) (crashed st)
              (trace st ++ [EvNewTicker (length (tickers st)) d]))) ->
  wp (time_NewTicker d) Q st.
Proof.
  intros Hp Hr. unfold wp, time_NewTicker.
  destruct (Z.leb_spec d 0); simpl; auto.
Qed.

Lemma wp_Ticker_Stop t Q st :
  Q (Ret tt) (mkState (self st) (clock st) (store st) (faults st)
                      (alter stop_ticker t (tickers st)) (goroutines st)
                      (crashed st) (trace st ++ [EvTickerStop t])) ->
  wp (Ticker_Stop t) Q st.
Proof. exact (fun H => H). Qed.

Lemma wp_go_renewLock args Q st :
  Q (Ret tt) (mkState (self st) (clock st) (store st) (faults st)
                      (tickers st) (goroutines st ++ [GLoop]) (crashed st)
                      (trace st ++ [EvGo (length (goroutines st)) args])) ->
  wp (go_renewLock args) Q st.
Proof. exact (fun H => H). Qed.

Lemma wp_mono {X} (m : M L S C X) (Q Q' : Result X -> State L S C -> Prop) st :
  (forall r st', Q r st' -> Q' r st') -> wp m Q st -> wp m Q' st.
Proof. unfold wp. auto. Qed.

End WP.

Lemma wp_Rollback snapshot Q (st : State Gorm.GORMLocker Gorm.Store Gorm.Call) :
  (forall s',
      Q (Ret tt) (mkState (self st) (clock st) (Gorm.aborted snapshot s')
                          (tl (faults st)) (tickers st) (goroutines st)
                          (crashed st)
                          (trace st ++ [EvCall Gorm.CRollback]))) ->
  wp (Gorm.Rollback snapshot) Q st.
Proof.
  intros H. unfold wp, Gorm.Rollback, backend, set_store.
  destruct (faults st) as [|[e|] fs]; simpl; apply H.
Qed.

Lemma wp_Transaction fc Q (st : State Gorm.GORMLocker Gorm.Store Gorm.Call) :
  wp Gorm.Begin
     (fun r st1 =>
        match r with
        | Ret (inr err) => Q (Ret (Some err)) st1
        | Panic msg => Q (Panic msg) st1
        | Ret (inl _) =>
            wp fc
               (fun r2 st2 =>
                  match r2 with
                  | Ret None =>
                      wp Gorm.Commit
                         (fun r3 st3 =>
                            match r3 with
                            | Ret (inl _) => Q (Ret None) st3
                            | Ret (inr err) =>
                                wp (Gorm.Rollback (Gorm.rows (store st)))
                                   (fun _ st4 => Q (Ret (Some err)) st4) st3
                            | Panic msg => Q (Panic msg) st3
                            end) st2
                  | Ret (Some err) =>
                      wp (Gorm.Rollback (Gorm.rows (store st)))
                         (fun _ st3 => Q (Ret (Some err)) st3) st2
                  | Panic msg =>
                      wp (Gorm.Rollback (Gorm.rows (store st)))
                         (fun _ st3 => Q (Panic msg) st3) st2
                  end) st1
        end) st ->
  wp (Gorm.Transaction fc) Q st.
Proof.
  unfold wp, Gorm.Transaction.
  destruct (Gorm.Begin st) as [[[u|err]|msg] st1]; simpl; auto.
  destruct (fc st1) as [[[err|]|msg] st2]; simpl; auto.
  destruct (Gorm.Commit st2) as [[[u'|err]|msg] st3]; simpl; auto.
Qed.

Create HintDb go_calls.
#[local] Hint Unfold
  Redis.SetNX Redis.Get Redis.Del Redis.Expire
  Memcached.Add Memcached.Replace Memcached.Delete
  Etcd.Grant Etcd.Put Etcd.Delete Etcd.Revoke Etcd.KeepAliveOnce
  Consul.Session_Create Consul.KV_Put Consul.KV_Delete Consul.Session_Renew
  Zookeeper.Create Zookeeper.Delete
  Mongo.UpdateOne Mongo.DeleteOne
  Gorm.Create Gorm.First Gorm.Save Gorm.Delete Gorm.UpdateExpiredAt
  Gorm.Begin Gorm.Commit Gorm.Lock_on_create_error : go_calls.

(** One step of symbolic execution: the rule of the statement at the head
    of the program, a case split where the program branches. *)
Ltac wp_step :=
  lazymatch goal with
  | |- wp (bind _ _) _ _ => apply wp_bind
  | |- wp (ret _) _ _ => apply wp_ret
  | |- wp get_self _ _ => apply wp_get_self
  | |- wp time_Now _ _ => apply wp_time_Now
  | |- wp (put_self _) _ _ => apply wp_put_self
  | |- wp (log _ _ _) _ _ => apply wp_log
  | |- wp (backend _ _) _ _ => apply wp_backend; intros ? ? ?
  | |- wp (time_NewTicker _) _ _ => apply wp_time_NewTicker; intros ?
  | |- wp (Ticker_Stop _) _ _ => apply wp_Ticker_Stop
  | |- wp (go_renewLock _) _ _ => apply wp_go_renewLock
  | |- wp (Gorm.Transaction _) _ _ => apply wp_Transaction
  | |- wp (Gorm.Rollback _) _ _ => apply wp_Rollback; intros ?
  | |- wp (match ?x with _ => _ end) _ _ => destruct x eqn:?
  | |- match ?r with _ => _ end => destruct r eqn:?
  | |- wp _ _ _ => progress autounfold with go_calls
  end; cbn.

Ltac wp_run := cbn; repeat wp_step.

(** Turns a statement about [fst (m st)] and [snd (m st)] into a [wp]. *)
Ltac wp_start m st Q :=
  change (wp m Q st); cbv beta delta [m];
  destruct st as [[] ? ? ? ? ? ? ?]; wp_run.

Lemma trace_app_nil {C} (tr : list (Event C)) : tr = tr ++ [].
Proof. symmetry. apply app_nil_r. Qed.

Ltac trace_ext :=
  rewrite <- ?app_assoc;
  first [ reflexivity | apply trace_app_nil ].

Ltac kept_leaf :=
  unfold stop_channel_kept, config_kept; cbn;
  repeat split;
  try first
      [ exists 0%nat; cbn; rewrite ?app_nil_r; reflexivity
      | exists 1%nat; reflexivity
      | eexists; split; [ trace_ext | reflexivity ] ].

(** *** the stop channel, method by method *)

Ltac kept_tac m st A :=
  change (wp m (fun _ st' => stop_channel_kept A st st') st);
  cbv beta delta [m];
  destruct st as [[] ? ? ? ? ? ? ?];
  match goal with lg : Logger |- _ => destruct lg end;
  wp_run; kept_leaf.

Lemma redis_kept op st : stop_channel_kept redis st (snd (method redis op st)).
Proof.
  destruct op; cbn [method redis a_Lock a_Unlock a_Renew].
  - kept_tac Redis.Lock st redis.
  - kept_tac Redis.Unlock st redis.
  - kept_tac Redis.Renew st redis.
Qed.

Lemma memcached_kept op st :
  stop_channel_kept memcached st (snd (method memcached op st)).
Proof.
  destruct op; cbn [method memcached a_Lock a_Unlock a_Renew].
  - kept_tac Memcached.Lock st memcached.
  - kept_tac Memcached.Unlock st memcached.
  - kept_tac Memcached.Renew st memcached.
Qed.

Lemma etcd_kept op st : stop_channel_kept etcd st (snd (method etcd op st)).
Proof.
  destruct op; cbn [method etcd a_Lock a_Unlock a_Renew].
  - kept_tac Etcd.Lock st etcd.
  - kept_tac Etcd.Unlock st etcd.
  - kept_tac Etcd.Renew st etcd.
Qed.

Lemma consul_kept op st :
  stop_channel_kept consul st (snd (method consul op st)).
Proof.
  destruct op; cbn [method consul a_Lock a_Unlock a_Renew].
  - kept_tac Consul.Lock st consul.
  - kept_tac Consul.Unlock st consul.
  - kept_tac Consul.Renew st consul.
Qed.

Lemma zookeeper_kept op st :
  stop_channel_kept zookeeper st (snd (method zookeeper op st)).
Proof.
  destruct op; cbn [method zookeeper a_Lock a_Unlock a_Renew].
  - kept_tac Zookeeper.Lock st zookeeper.
  - kept_tac Zookeeper.Unlock st zookeeper.
  - kept_tac Zookeeper.Renew st zookeeper.
Qed.

Lemma mongo_kept op st : stop_channel_kept mongo st (snd (method mongo op st)).
Proof.
  destruct op; cbn [method mongo a_Lock a_Unlock a_Renew].
  - kept_tac Mongo.Lock st mongo.
  - kept_tac Mongo.Unlock st mongo.
  - kept_tac Mongo.Renew st mongo.
Qed.

Lemma gorm_kept op st : stop_channel_kept gorm st (snd (method gorm op st)).
Proof.
  destruct op; cbn [method gorm a_Lock a_Unlock a_Renew].
  - kept_tac Gorm.Lock st gorm.
  - kept_tac Gorm.Unlock st gorm.
  - kept_tac Gorm.Renew st gorm.
Qed.

(** The tick case of [renewLock] only logs. *)
Ltac after_tac m e st A :=
  change (wp (m e) (fun _ st' => stop_channel_kept A st st') st);
  cbv beta delta [m];
  destruct st as [[] ? ? ? ? ? ? ?];
  match goal with lg : Logger |- _ => destruct lg end;
  wp_run; kept_leaf.

Lemma redis_after_kept e st :
  stop_channel_kept redis st (snd (a_after redis e st)).
Proof. cbn [redis a_after]. after_tac Redis.renewLock_after e st redis. Qed.

Lemma memcached_after_kept e st :
  stop_channel_kept memcached st (snd (a_after memcached e st)).
Proof.
  cbn [memcached a_after].
  after_tac Memcached.renewLock_after e st memcached.
Qed.

Lemma etcd_after_kept e st :
  stop_channel_kept etcd st (snd (a_after etcd e st)).
Proof. cbn [etcd a_after]. after_tac Etcd.renewLock_after e st etcd. Qed.

Lemma consul_after_kept e st :
  stop_channel_kept consul st (snd (a_after consul e st)).
Proof. cbn [consul a_after]. after_tac Consul.renewLock_after e st consul. Qed.

Lemma zookeeper_after_kept e st :
  stop_channel_kept zookeeper st (snd (a_after zookeeper e st)).
Proof.
  cbn [zookeeper a_after].
  after_tac Zookeeper.renewLock_after e st zookeeper.
Qed.

Lemma mongo_after_kept e st :
  stop_channel_kept mongo st (snd (a_after mongo e st)).
Proof. cbn [mongo a_after]. after_tac Mongo.renewLock_after e st mongo. Qed.

Lemma gorm_after_kept e st :
  stop_channel_kept gorm st (snd (a_after gorm e st)).
Proof. cbn [gorm a_after]. after_tac Gorm.renewLock_after e st gorm. Qed.

(** *** the stop channel along the runs of the process *)

Section StopChannel.
Context {L S C : Type} (A : Locker L S C).

Hypothesis method_kept :
  forall op st, stop_channel_kept A st (snd (method A op st)).
Hypothesis after_kept :
  forall e st, stop_channel_kept A st (snd (a_after A e st)).

Lemma unsignalled_kept st st' :
  unsignalled A st -> stop_channel_kept A st st' -> unsignalled A st'.
Proof.
  intros (Hc & Hg & Ht) (Hc' & (n & Hg') & (es & Ht' & Hes)).
  repeat split.
  - congruence.
  - rewrite Hg'. apply Forall_app. split; [exact Hg|].
    clear. induction n as [|n IH]; cbn; constructor;
      [discriminate | exact IH].
  - rewrite Ht', forallb_app, Ht, Hes. reflexivity.
Qed.

Lemma unsignalled_event st e c :
  is_chan_event e = false ->
  unsignalled A st ->
  unsignalled A (set_trace (trace st ++ [e]) c st).
Proof.
  intros He (Hc & Hg & Ht). repeat split; cbn; auto.
  rewrite forallb_app, Ht. cbn. rewrite He. reflexivity.
Qed.

Lemma unsignalled_goroutine st g gs :
  gs <> GDone ->
  unsignalled A st ->
  unsignalled A (set_goroutines (<[g := gs]> (goroutines st)) st).
Proof.
  intros Hgs (Hc & Hg & Ht). repeat split; cbn; auto.
  apply Forall_insert; auto.
Qed.

Lemma unsignalled_call who op st :
  unsignalled A st -> unsignalled A (snd (call A who op st)).
Proof.
  intros Hst. unfold call.
  pose proof (unsignalled_event st (EvBegin who op) (crashed st) eq_refl Hst)
    as H1.
  pose proof (method_kept op (set_trace (trace st ++ [EvBegin who op])
                                        (crashed st) st)) as H2.
  destruct (method A op _) as [r st2]. cbn [snd] in *.
  apply unsignalled_event; [reflexivity|].
  eapply unsignalled_kept; eauto.
Qed.

Lemma unsignalled_step lb st st' :
  unsignalled A st -> step A lb st = Some st' -> unsignalled A st'.
Proof.
  intros Hst. unfold step.
  destruct (crashed st); [discriminate|].
  destruct lb as [op|dt|t|g|g|g|g].
  - intros [= <-]. apply unsignalled_call; assumption.
  - destruct (0 <=? dt); intros [= <-]. exact Hst.
  - destruct (tickers st !! t) as [tk|]; [|discriminate].
    destruct (tk_running tk && (tk_next tk <=? clock st));
      intros [= <-]. exact Hst.
  - destruct (goroutines st !! g) as [[]|]; try discriminate.
    destruct (a_renewTicker A (self st)); intros [= <-].
    + apply unsignalled_goroutine; [discriminate | assumption].
    + apply unsignalled_event; [reflexivity | assumption].
  - destruct (goroutines st !! g) as [[]|]; try discriminate.
    destruct (tickers st !! t) as [tk|]; [|discriminate].
    destruct (tk_C tk); intros [= <-].
    apply (unsignalled_goroutine
             (set_tickers (<[t := take_tick tk]> (tickers st)) st));
      [discriminate|]. exact Hst.
  - destruct (goroutines st !! g) as [[]|]; try discriminate.
    destruct Hst as (Hc & _). rewrite Hc. cbn. discriminate.
  - destruct (goroutines st !! g) as [[]|]; try discriminate.
    pose proof (unsignalled_call (Goroutine g) OpRenew st Hst) as H1.
    destruct (call A (Goroutine g) OpRenew st) as [[err|msg] st1];
      cbn [snd] in H1; intros [= <-]; [|exact H1].
    apply unsignalled_goroutine; [discriminate|].
    eapply unsignalled_kept; [exact H1 | apply after_kept].
Qed.

Lemma unsignalled_run sched : forall st st',
  unsignalled A st -> run A sched st = Some st' -> unsignalled A st'.
Proof.
  induction sched as [|lb rest IH]; intros st st' Hst; cbn.
  - intros [= <-]. exact Hst.
  - destruct (step A lb st) as [st1|] eqn:Hstep; [|discriminate].
    apply IH. eapply unsignalled_step; eauto.
Qed.

(** A goroutine proceeds with [<-l.stopChan] in no run. *)
Lemma stop_never_received sched g : forall st st',
  unsignalled A st -> run A sched st = Some st' ->
  step A (LRecvStop g) st' = None.
Proof.
  intros st st' Hst Hrun.
  destruct (unsignalled_run sched st st' Hst Hrun) as (Hc & _).
  unfold step. destruct (crashed st'); [reflexivity|].
  destruct (goroutines st' !! g) as [[]|]; try reflexivity.
  rewrite Hc. reflexivity.
Qed.

End StopChannel.

Lemma unsignalled_start {L S C} (A : Locker L S C) made now s fs :
  a_stopChan A (fst made) = make_chan ->
  unsignalled A (start made now s fs).
Proof.
  intros H. repeat split; cbn; auto.
  induction (snd made) as [|p ps IH]; cbn; auto.
Qed.

Lemma wp_elim {L S C X} (m : M L S C X) Q st r st' :
  wp m Q st -> m st = (r, st') -> Q r st'.
Proof. unfold wp. intros H E. rewrite E in H. exact H. Qed.

(** [Unlock] neither starts nor ends a goroutine. *)
Ltac unlock_tac m st :=
  change (wp m (fun _ st' => goroutines st' = goroutines st) st);
  cbv beta delta [m];
  destruct st as [[] ? ? ? ? ? ? ?];
  wp_run; reflexivity.

Lemma redis_unlock_goroutines st :
  goroutines (snd (Redis.Unlock st)) = goroutines st.
Proof. unlock_tac Redis.Unlock st. Qed.

Lemma memcached_unlock_goroutines st :
  goroutines (snd (Memcached.Unlock st)) = goroutines st.
Proof. unlock_tac Memcached.Unlock st. Qed.

Lemma etcd_unlock_goroutines st :
  goroutines (snd (Etcd.Unlock st)) = goroutines st.
Proof. unlock_tac Etcd.Unlock st. Qed.

Lemma consul_unlock_goroutines st :
  goroutines (snd (Consul.Unlock st)) = goroutines st.
Proof. unlock_tac Consul.Unlock st. Qed.

Lemma zookeeper_unlock_goroutines st :
  goroutines (snd (Zookeeper.Unlock st)) = goroutines st.
Proof. unlock_tac Zookeeper.Unlock st. Qed.

Lemma mongo_unlock_goroutines st :
  goroutines (snd (Mongo.Unlock st)) = goroutines st.
Proof. unlock_tac Mongo.Unlock st. Qed.

Lemma gorm_unlock_goroutines st :
  goroutines (snd (Gorm.Unlock st)) = goroutines st.
Proof. unlock_tac Gorm.Unlock st. Qed.

Lemma never_signalled_intro {L S C} (A : Locker L S C) :
  (forall op st, stop_channel_kept A st (snd (method A op st))) ->
  (forall e st, stop_channel_kept A st (snd (a_after A e st))) ->
  (forall st, goroutines (snd (a_Unlock A st)) = goroutines st) ->
  (forall host opts, a_stopChan A (fst (a_New A host opts)) = make_chan) ->
  never_signalled A.
Proof.
  intros Hm Ha Hu Hn. split; [exact Hm|]. split; [exact Hu|].
  intros host opts now s fs sched st' g Hrun.
  assert (Hs : unsignalled A (start (a_New A host opts) now s fs))
    by (apply unsignalled_start, Hn).
  split.
  - eapply unsignalled_run; eauto.
  - eapply stop_never_received; eauto.
Qed.

(** C10. In each of the seven adapters no method closes the stop channel
    or sends on it, [Unlock] stops the ticker and leaves every goroutine
    where it stands, and so, in every run of the process that starts at
    the constructor, the stop channel stays as [make] left it, no
    [renewLock] goroutine ever returns, and the case [<-l.stopChan] of its
    [select] can never proceed. *)
Theorem C10_stop_channel_never_signalled :
  never_signalled redis /\ never_signalled memcached /\ never_signalled etcd
  /\ never_signalled consul /\ never_signalled zookeeper
  /\ never_signalled mongo /\ never_signalled gorm.
Proof.
  repeat match goal with |- _ /\ _ => split end.
  all: apply never_signalled_intro; try reflexivity.
  all: first
         [ exact redis_kept | exact redis_after_kept
         | exact redis_unlock_goroutines
         | exact memcached_kept | exact memcached_after_kept
         | exact memcached_unlock_goroutines
         | exact etcd_kept | exact etcd_after_kept
         | exact etcd_unlock_goroutines
         | exact consul_kept | exact consul_after_kept
         | exact consul_unlock_goroutines
         | exact zookeeper_kept | exact zookeeper_after_kept
         | exact zookeeper_unlock_goroutines
         | exact mongo_kept | exact mongo_after_kept
         | exact mongo_unlock_goroutines
         | exact gorm_kept | exact gorm_after_kept
         | exact gorm_unlock_goroutines ].
Qed.

Lemma C10_stop_channel_never_signalled_witness :
  exists st',
    run redis c10_schedule c10_start = Some st'
    /\ goroutines st' = [GSelect 0]
    /\ unsignalled redis st'
    /\ step redis (LRecvStop 0) st' = None.
Proof.
  destruct (run redis c10_schedule c10_start) as [st'|] eqn:Hrun;
    [|vm_compute in Hrun; discriminate Hrun].
  exists st'. split; [reflexivity|]. split.
  - vm_compute in Hrun. injection Hrun as <-. reflexivity.
  - destruct C10_stop_channel_never_signalled as ((_ & _ & H) & _).
    exact (H ("host-1", None) [] 0 ∅ [] c10_schedule st' 0%nat Hrun).
Defined.

(** *** the configuration, method by method *)

Ltac config_tac m st A clearing op :=
  change (wp m (fun r st' =>
                  config_kept A
                    (owner_after clearing op r
                                 (Opt.ownerID (a_config A (self st))))
                    st st') st);
  cbv beta delta [m];
  destruct st as [[] ? ? ? ? ? ? ?];
  wp_run; reflexivity.

Lemma redis_config : config_frame redis false.
Proof.
  split; [intros host opts; cbn; destruct (Opt.ApplyOptions host opts); reflexivity|].
  intros op st; destruct op; cbn [method redis a_Lock a_Unlock a_Renew].
  - config_tac Redis.Lock st redis false OpLock.
  - config_tac Redis.Unlock st redis false OpUnlock.
  - config_tac Redis.Renew st redis false OpRenew.
Qed.

Lemma memcached_config : config_frame memcached false.
Proof.
  split; [intros host opts; cbn; destruct (Opt.ApplyOptions host opts); reflexivity|].
  intros op st; destruct op;
    cbn [method memcached a_Lock a_Unlock a_Renew].
  - config_tac Memcached.Lock st memcached false OpLock.
  - config_tac Memcached.Unlock st memcached false OpUnlock.
  - config_tac Memcached.Renew st memcached false OpRenew.
Qed.

Lemma etcd_config : config_frame etcd false.
Proof.
  split; [intros host opts; cbn; destruct (Opt.ApplyOptions host opts); reflexivity|].
  intros op st; destruct op; cbn [method etcd a_Lock a_Unlock a_Renew].
  - config_tac Etcd.Lock st etcd false OpLock.
  - config_tac Etcd.Unlock st etcd false OpUnlock.
  - config_tac Etcd.Renew st etcd false OpRenew.
Qed.

Lemma consul_config : config_frame consul false.
Proof.
  split; [intros host opts; cbn; destruct (Opt.ApplyOptions host opts); reflexivity|].
  intros op st; destruct op; cbn [method consul a_Lock a_Unlock a_Renew].
  - config_tac Consul.Lock st consul false OpLock.
  - config_tac Consul.Unlock st consul false OpUnlock.
  - config_tac Consul.Renew st consul false OpRenew.
Qed.

Lemma gorm_config : config_frame gorm false.
Proof.
  split; [intros host opts; cbn; destruct (Opt.ApplyOptions host opts); reflexivity|].
  intros op st; destruct op; cbn [method gorm a_Lock a_Unlock a_Renew].
  - config_tac Gorm.Lock st gorm false OpLock.
  - config_tac Gorm.Unlock st gorm false OpUnlock.
  - config_tac Gorm.Renew st gorm false OpRenew.
Qed.

Lemma zookeeper_config : config_frame zookeeper true.
Proof.
  split; [intros host opts; cbn; destruct (Opt.ApplyOptions host opts); reflexivity|].
  intros op st; destruct op;
    cbn [method zookeeper a_Lock a_Unlock a_Renew].
  - config_tac Zookeeper.Lock st zookeeper true OpLock.
  - config_tac Zookeeper.Unlock st zookeeper true OpUnlock.
  - config_tac Zookeeper.Renew st zookeeper true OpRenew.
Qed.

Lemma mongo_config : config_frame mongo true.
Proof.
  split; [intros host opts; cbn; destruct (Opt.ApplyOptions host opts); reflexivity|].
  intros op st; destruct op; cbn [method mongo a_Lock a_Unlock a_Renew].
  - config_tac Mongo.Lock st mongo true OpLock.
  - config_tac Mongo.Unlock st mongo true OpUnlock.
  - config_tac Mongo.Renew st mongo true OpRenew.
Qed.

(** C8, as stated, fails: [Unlock] of the Mongo adapter returns nil and
    leaves the owner id empty, where the constructor had put "host-1". *)
Lemma C8_counterexample :
  Opt.ownerID (a_config mongo (self c8_start)) = "host-1"
  /\ fst (Mongo.Unlock c8_start) = Ret None
  /\ Opt.ownerID (a_config mongo (self (snd (Mongo.Unlock c8_start)))) = ""
  /\ a_config mongo (self (snd (Mongo.Unlock c8_start)))
     <> a_config mongo (self c8_start).
Proof. repeat split; try reflexivity. vm_compute. discriminate. Qed.

(** C8 (amended). In each of the seven adapters the constructor copies
    the lock name, the timeout, the owner id and the logger from the
    options, and no [Lock], [Unlock] or [Renew] changes the name, the
    timeout or the logger.  The owner id is kept by every method of the
    redis, memcached, etcd, consul and gorm adapters and by [Lock] and
    [Renew] of the zookeeper and mongo adapters; an [Unlock] of these two
    that returns nil sets it to the empty string. *)
Theorem C8_configuration_frame :
  config_frame redis false /\ config_frame memcached false
  /\ config_frame etcd false /\ config_frame consul false
  /\ config_frame gorm false
  /\ config_frame zookeeper true /\ config_frame mongo true.
Proof.
  repeat match goal with |- _ /\ _ => split end.
  - exact redis_config.
  - exact memcached_config.
  - exact etcd_config.
  - exact consul_config.
  - exact gorm_config.
  - exact zookeeper_config.
  - exact mongo_config.
Qed.

(** *** the scheduler after a [Lock] that returns nil *)

Ltac started_leaf :=
  left; unfold scheduler_started; cbn;
  repeat match goal with |- _ /\ _ => split end;
  try reflexivity;
  eexists; split; [ trace_ext | cbn; repeat first [left; reflexivity | right] ].

Ltac lock_tac m st A excuse :=
  intros st st' Hrun;
  refine (wp_elim m
            (fun r st' =>
               r = Ret None ->
               scheduler_started A
                 (Duration_half (Opt.lockTimeout (a_config A (self st))))
                 st st'
               \/ (excuse st /\ scheduler_untouched A st st'))
            st _ _ _ Hrun eq_refl);
  clear Hrun st';
  cbv beta delta [m];
  destruct st as [[] ? ? ? ? ? ? ?];
  match goal with lg : Logger |- _ => destruct lg end;
  wp_run;
  (intros Hr; first [ discriminate Hr | started_leaf ]).

Lemma memcached_lock_starts : lock_starts_scheduler memcached (fun _ => False).
Proof. lock_tac Memcached.Lock st memcached (fun _ : State Memcached.MemcachedLocker (gmap string Memcached.Entry) Memcached.Call => False). Qed.

Lemma etcd_lock_starts : lock_starts_scheduler etcd (fun _ => False).
Proof. lock_tac Etcd.Lock st etcd (fun _ : State Etcd.EtcdLocker Etcd.Store Etcd.Call => False). Qed.

Lemma consul_lock_starts : lock_starts_scheduler consul (fun _ => False).
Proof. lock_tac Consul.Lock st consul (fun _ : State Consul.ConsulLocker Consul.Store Consul.Call => False). Qed.

Lemma zookeeper_lock_starts : lock_starts_scheduler zookeeper (fun _ => False).
Proof. lock_tac Zookeeper.Lock st zookeeper (fun _ : State Zookeeper.ZookeeperLocker Zookeeper.Store Zookeeper.Call => False). Qed.

Lemma mongo_lock_starts : lock_starts_scheduler mongo (fun _ => False).
Proof. lock_tac Mongo.Lock st mongo (fun _ : State Mongo.MongoLocker Mongo.Store Mongo.Call => False). Qed.

Lemma gorm_lock_starts : lock_starts_scheduler gorm (fun _ => False).
Proof. lock_tac Gorm.Lock st gorm (fun _ : State Gorm.GORMLocker Gorm.Store Gorm.Call => False). Qed.

Lemma redis_lock_starts : lock_starts_scheduler redis Redis_held_by_self.
Proof.
  intros st st' Hrun.
  refine (wp_elim Redis.Lock
            (fun r st' =>
               r = Ret None ->
               scheduler_started redis
                 (Duration_half (Opt.lockTimeout (a_config redis (self st))))
                 st st'
               \/ (Redis_held_by_self st /\ scheduler_untouched redis st st'))
            st _ _ _ Hrun eq_refl).
  clear Hrun st'. cbv beta delta [Redis.Lock].
  destruct st as [[n d t c o lg] now s fs tks gs cr tr].
  destruct lg; wp_run.
  all: intros Hr; first [ discriminate Hr | started_leaf | idtac ].
  all: right; split; [| repeat split ].
  all: unfold Redis_held_by_self; cbn.
  all: repeat match goal with
         | H : answer _ _ _ _ |- _ =>
             let He := fresh "He" in
             destruct H as [(? & _ & He & _) | (_ & He)]; cbn in He;
             [ congruence | ]
         end.
  all: subst; unfold Redis.do_SetNX, Redis.do_Get in *.
  all: destruct (d <? 0); [congruence|].
  all: destruct (Redis.find now s n) as [e|] eqn:Hfind; [|congruence].
  all: simplify_eq; rewrite Hfind in *; simplify_eq.
  all: exists e; split; [reflexivity|].
  all: match goal with
       | H : bool_decide _ = false |- _ =>
           apply bool_decide_eq_false in H; apply dec_stable in H; exact H
       end.
Qed.

(** C5, as stated, fails: this [Lock] returns nil and starts nothing. *)
Lemma C5_counterexample :
  fst (Redis.Lock c5_start) = Ret None
  /\ Redis.renewTicker (self (snd (Redis.Lock c5_start))) = None
  /\ tickers (snd (Redis.Lock c5_start)) = []
  /\ goroutines (snd (Redis.Lock c5_start)) = []
  /\ ~ scheduler_started redis (5 * Second) c5_start
                         (snd (Redis.Lock c5_start)).
Proof.
  repeat split; try (vm_compute; reflexivity).
  intros (H & _). vm_compute in H. discriminate H.
Qed.

(** C5 (amended). In each of the seven adapters a [Lock] that returns nil
    has put a fresh running ticker of interval [lockTimeout / 2] in
    [l.renewTicker] and has started one [renewLock] goroutine; the one
    exception is the Redis adapter when [SetNX] finds the key already
    holding the locker's own owner id, where [Lock] returns nil and leaves
    ticker and goroutines as they were. *)
Theorem C5_lock_starts_scheduler :
  lock_starts_scheduler redis Redis_held_by_self
  /\ lock_starts_scheduler memcached (fun _ => False)
  /\ lock_starts_scheduler etcd (fun _ => False)
  /\ lock_starts_scheduler consul (fun _ => False)
  /\ lock_starts_scheduler zookeeper (fun _ => False)
  /\ lock_starts_scheduler mongo (fun _ => False)
  /\ lock_starts_scheduler gorm (fun _ => False).
Proof.
  repeat match goal with |- _ /\ _ => split end.
  - exact redis_lock_starts.
  - exact memcached_lock_starts.
  - exact etcd_lock_starts.
  - exact consul_lock_starts.
  - exact zookeeper_lock_starts.
  - exact mongo_lock_starts.
  - exact gorm_lock_starts.
Qed.

Lemma C5_lock_starts_scheduler_witness :
  fst (Gorm.Lock c5_gorm_start) = Ret None
  /\ scheduler_started gorm (5 * Second) c5_gorm_start
                       (snd (Gorm.Lock c5_gorm_start)).
Proof.
  split; [vm_compute; reflexivity|].
  destruct C5_lock_starts_scheduler as (_ & _ & _ & _ & _ & _ & H).
  destruct (H c5_gorm_start (snd (Gorm.Lock c5_gorm_start)))
    as [Hs | (Hf & _)].
  - vm_compute. reflexivity.
  - exact Hs.
  - destruct Hf.
Defined.

(** *** [Lock] of the compare-and-swap adapters when the key is taken *)

Ltac go_unfold :=
  unfold bind, ret, get_self, put_self, time_Now, log, emit, backend,
    time_NewTicker, Ticker_Stop, go_renewLock, panic, set_store.

Lemma appended_app {L S C} (st st' : State L S C) es :
  trace st' = trace st ++ es -> appended st st' = es.
Proof. intros H. unfold appended. rewrite H. apply drop_app_length. Qed.

Lemma redis_lock_taken st e :
  calls_arrive 2 st = true ->
  0 <= Redis.lockTimeout (self st) ->
  Redis.find (clock st) (store st) (Redis.lockName (self st)) = Some e ->
  fst (Redis.Lock st) =
    Ret (if bool_decide (Redis.value e = Redis.ownerID (self st))
         then None
         else Some (Errorf_s "lock is already held by " (Redis.value e)))
  /\ store (snd (Redis.Lock st)) = store st
  /\ calls_of (appended st (snd (Redis.Lock st))) =
       [Redis.CSetNX (Redis.lockName (self st)) (Redis.ownerID (self st))
                     (Redis.lockTimeout (self st));
        Redis.CGet (Redis.lockName (self st))].
Proof.
  destruct st as [[n d t c o lg] now s fs tks gs cr tr].
  unfold calls_arrive. cbn. intros Hfs Hd Hfind.
  assert (Hneg : (d <? 0) = false) by (apply Z.ltb_ge; exact Hd).
  unfold Redis.Lock, Redis.SetNX, Redis.Get. go_unfold.
  destruct fs as [|[e1|] [|[e2|] fs]]; cbn in Hfs; try discriminate Hfs;
    cbn; unfold Redis.do_SetNX; rewrite Hneg, Hfind; cbn;
    unfold Redis.do_Get; rewrite Hfind; cbn.
  all: destruct (decide (Redis.value e = o)) as [Heq|Hne].
  all: try (rewrite (bool_decide_eq_false_2 (Redis.value e <> o))
             by (intros Hc; exact (Hc Heq))).
  all: try (rewrite (bool_decide_eq_true_2 (Redis.value e <> o)) by exact Hne).
  all: try (rewrite (bool_decide_eq_true_2 (Redis.value e = o)) by exact Heq).
  all: try (rewrite (bool_decide_eq_false_2 (Redis.value e = o)) by exact Hne).
  all: destruct lg; cbn; repeat split; try reflexivity.
  all: unfold appended; cbn; rewrite <- ?app_assoc, drop_app_length;
    reflexivity.
Qed.

Lemma memcached_lock_taken st e :
  calls_arrive 1 st = true ->
  Memcached.find (clock st) (store st) (Memcached.lockKey (self st)) = Some e ->
  fst (Memcached.Lock st) =
    Ret (Some (errorString "lock is already held by another owner"))
  /\ store (snd (Memcached.Lock st)) = store st
  /\ calls_of (appended st (snd (Memcached.Lock st))) =
       [Memcached.CAdd
          (Memcached.mkItem (Memcached.lockKey (self st))
             (Memcached.ownerID (self st))
             (Duration_whole_seconds (Memcached.lockTimeout (self st))))].
Proof.
  destruct st as [[n d t c o lg] now s fs tks gs cr tr].
  unfold calls_arrive. cbn. intros Hfs Hfind.
  unfold Memcached.Lock, Memcached.Add. go_unfold.
  destruct fs as [|[e1|] fs]; cbn in Hfs; try discriminate Hfs;
    cbn; unfold Memcached.do_Add; cbn; rewrite Hfind; cbn.
  all: rewrite (bool_decide_eq_true_2 _ (eq_refl memcache_ErrNotStored)).
  all: destruct lg; cbn; repeat split; try reflexivity.
  all: unfold appended; cbn; rewrite <- ?app_assoc, drop_app_length;
    reflexivity.
Qed.

(** C3, as stated, fails: the key holds the locker's own owner id, and
    [Lock] of the Memcached adapter fails all the same. *)
Lemma C3_counterexample :
  Memcached.find (clock c3_start) (store c3_start)
                 (Memcached.lockKey (self c3_start))
    = Some (Memcached.mkEntry (Memcached.ownerID (self c3_start))
                              (Some (10 * Second)))
  /\ fst (Memcached.Lock c3_start) =
       Ret (Some (errorString "lock is already held by another owner"))
  /\ fst (Memcached.Lock c3_start) <> Ret None.
Proof.
  repeat split; try (vm_compute; reflexivity).
  vm_compute. discriminate.
Qed.

(** C3 (amended).  When the atomic set-if-absent finds the key taken
    (and the calls reach the backend):
    - the Redis adapter reads the stored owner with [Get]; [Lock] returns
      nil if that owner is the locker's own owner id, and the error
      "lock is already held by <owner>" otherwise;
    - the Memcached adapter reads nothing: after its [Add], [Lock]
      returns the error "lock is already held by another owner" whoever
      the stored owner is, the locker itself included.
    In both the backend is left as it was. *)
Theorem C3_lock_on_taken_key :
  (forall st e,
      calls_arrive 2 st = true ->
      0 <= Redis.lockTimeout (self st) ->
      Redis.find (clock st) (store st) (Redis.lockName (self st)) = Some e ->
      fst (Redis.Lock st) =
        Ret (if bool_decide (Redis.value e = Redis.ownerID (self st))
             then None
             else Some (Errorf_s "lock is already held by " (Redis.value e)))
      /\ store (snd (Redis.Lock st)) = store st
      /\ calls_of (appended st (snd (Redis.Lock st))) =
           [Redis.CSetNX (Redis.lockName (self st)) (Redis.ownerID (self st))
                         (Redis.lockTimeout (self st));
            Redis.CGet (Redis.lockName (self st))])
  /\ (forall st e,
        calls_arrive 1 st = true ->
        Memcached.find (clock st) (store st) (Memcached.lockKey (self st))
          = Some e ->
        fst (Memcached.Lock st) =
          Ret (Some (errorString "lock is already held by another owner"))
        /\ store (snd (Memcached.Lock st)) = store st
        /\ calls_of (appended st (snd (Memcached.Lock st))) =
             [Memcached.CAdd
                (Memcached.mkItem (Memcached.lockKey (self st))
                   (Memcached.ownerID (self st))
                   (Duration_whole_seconds (Memcached.lockTimeout (self st))))]).
Proof.
  split.
  - exact redis_lock_taken.
  - exact memcached_lock_taken.
Qed.

Lemma C3_lock_on_taken_key_witness :
  fst (Redis.Lock c5_start) = Ret None
  /\ fst (Memcached.Lock c3_start) =
       Ret (Some (errorString "lock is already held by another owner")).
Proof.
  destruct C3_lock_on_taken_key as (Hr & Hm). split.
  - refine (proj1 (Hr c5_start (Redis.mkEntry "host-1" (Some (10 * Second)))
                      _ _ _)).
    + vm_compute. reflexivity.
    + vm_compute. discriminate.
    + vm_compute. reflexivity.
  - refine (proj1 (Hm c3_start
                      (Memcached.mkEntry "host-1" (Some (10 * Second))) _ _)).
    + vm_compute. reflexivity.
    + vm_compute. reflexivity.
Defined.

(** *** [Lock] of the transactional adapters *)

Lemma existsb_find {X} (p : X -> bool) (l : list X) :
  existsb p l = match find p l with Some _ => true | None => false end.
Proof.
  induction l as [|x l IH]; cbn; [reflexivity|].
  destruct (p x); cbn; auto.
Qed.

Ltac gorm_eval :=
  unfold Gorm.Lock, Gorm.Transaction, Gorm.Lock_on_create_error,
    Gorm.Rollback, Gorm.Begin, Gorm.Commit, Gorm.Create, Gorm.First,
    Gorm.Save;
  unfold bind, ret, get_self, put_self, time_Now, log, emit, backend,
    time_NewTicker, Ticker_Stop, go_renewLock, panic, set_store;
  cbn.

(** No row has the name: [Lock] inserts the record and returns nil. *)
Lemma gorm_lock_inserts st :
  gorm_ready st ->
  find (Gorm.has_name (Gorm.lockName (self st))) (Gorm.rows (store st)) = None ->
  fst (Gorm.Lock st) = Ret None
  /\ Gorm.rows (store (snd (Gorm.Lock st))) =
       Gorm.rows (store st) ++
         [Gorm.mkLock (Gorm.nextID (store st)) (Gorm.lockName (self st))
                      (Gorm.ownerID (self st))
                      (clock st + Gorm.lockTimeout (self st))
                      (clock st) (clock st)].
Proof.
  destruct st as [[n d t c o lg] now [dia rows nid tx ab] fs tks gs cr tr].
  intros (Hf & Hd & Htx & Hab & Hpos) Hfind. cbn in *. subst.
  assert (Hle : (Duration_half d <=? 0) = false) by (apply Z.leb_gt; exact Hpos).
  gorm_eval. unfold Gorm.do_Create; cbn.
  rewrite existsb_find, Hfind. cbn. rewrite Hle. cbn.
  split; reflexivity.
Qed.

(** A row has the name and its expiry is before now: [Lock] gives the
    row to the caller, with the new expiry, and returns nil. *)
Lemma gorm_lock_steals st r :
  gorm_ready st ->
  find (Gorm.has_name (Gorm.lockName (self st))) (Gorm.rows (store st)) = Some r ->
  Gorm.ExpiredAt r < clock st ->
  fst (Gorm.Lock st) = Ret None
  /\ Gorm.rows (store (snd (Gorm.Lock st))) =
       map (fun x =>
              if Gorm.ID x =? Gorm.ID r
              then Gorm.mkLock (Gorm.ID r) (Gorm.Name r)
                     (Gorm.ownerID (self st))
                     (clock st + Gorm.lockTimeout (self st))
                     (Gorm.CreatedAt r) (clock st)
              else x)
           (Gorm.rows (store st)).
Proof.
  destruct st as [[n d t c o lg] now [dia rows nid tx ab] fs tks gs cr tr].
  intros (Hf & Hd & Htx & Hab & Hpos) Hfind Hexp. cbn in *. subst.
  assert (Hle : (Duration_half d <=? 0) = false) by (apply Z.leb_gt; exact Hpos).
  assert (Hb : Time_Before (Gorm.ExpiredAt r) now = true)
    by (apply Z.ltb_lt; exact Hexp).
  gorm_eval. unfold Gorm.do_Create; cbn.
  rewrite existsb_find, Hfind. cbn.
  unfold Gorm.do_First; cbn. rewrite Hfind. cbn. rewrite Hb. cbn.
  rewrite Hle. cbn.
  split; reflexivity.
Qed.

(** A row has the name and its expiry is not before now: [Lock] returns
    the error that names the owner of the row, and the table is as it
    was. *)
Lemma gorm_lock_conflicts st r :
  gorm_ready st ->
  find (Gorm.has_name (Gorm.lockName (self st))) (Gorm.rows (store st)) = Some r ->
  clock st <= Gorm.ExpiredAt r ->
  fst (Gorm.Lock st) =
    Ret (Some (Errorf_s "lock is already held by " (Gorm.OwnerID r)))
  /\ Gorm.rows (store (snd (Gorm.Lock st))) = Gorm.rows (store st).
Proof.
  destruct st as [[n d t c o lg] now [dia rows nid tx ab] fs tks gs cr tr].
  intros (Hf & Hd & Htx & Hab & Hpos) Hfind Hexp. cbn in *. subst.
  assert (Hb : Time_Before (Gorm.ExpiredAt r) now = false)
    by (apply Z.ltb_ge; exact Hexp).
  gorm_eval. unfold Gorm.do_Create; cbn.
  rewrite existsb_find, Hfind. cbn.
  unfold Gorm.do_First; cbn. rewrite Hfind. cbn. rewrite Hb. cbn.
  split; reflexivity.
Qed.

(** C1 (defect of the Mongo adapter).  On the record of another owner
    that has not expired, [Lock] of the Mongo adapter returns nil and
    overwrites owner and expiry; on an empty collection it inserts its
    record and returns "lock is already held by another owner".  On a
    server that refuses the update document, it fails in both states with
    the server's error and writes nothing. *)
Theorem C1_mongo_lock_ignores_expiry :
  (fst (Mongo.Lock c1_held) = Ret None
   /\ Mongo.docs (store (snd (Mongo.Lock c1_held))) =
        [Mongo_record "onex-distributed-lock" "host-A" (11 * Second)])
  /\ (fst (Mongo.Lock c1_free) =
        Ret (Some (errorString "lock is already held by another owner"))
      /\ Mongo.docs (store (snd (Mongo.Lock c1_free))) =
           [Mongo_record "onex-distributed-lock" "host-A" (11 * Second)])
  /\ (fst (Mongo.Lock c1_held_strict) =
        Ret (Some (errorString
          "failed to acquire lock: Updating the path would create a conflict"))
      /\ store (snd (Mongo.Lock c1_held_strict)) = store c1_held_strict)
  /\ (fst (Mongo.Lock c1_free_strict) =
        Ret (Some (errorString
          "failed to acquire lock: Updating the path would create a conflict"))
      /\ store (snd (Mongo.Lock c1_free_strict)) = store c1_free_strict).
Proof.
  repeat match goal with |- _ /\ _ => split end; vm_compute; reflexivity.
Qed.

(** On PostgreSQL the refused [INSERT] aborts the transaction, so the
    [First] that follows fails and the expired row stays. *)
Lemma gorm_lock_postgres_keeps_stale_row :
  fst (Gorm.Lock c1_gorm_postgres) =
    Ret (Some (PgError "25P02" "current transaction is aborted"))
  /\ Gorm.rows (store (snd (Gorm.Lock c1_gorm_postgres))) =
       Gorm.rows (store c1_gorm_postgres).
Proof. split; vm_compute; reflexivity. Qed.

Lemma calls_appended {L S C} (st st' : State L S C) cs :
  (exists es, trace st' = trace st ++ es /\ calls_of es = cs) ->
  calls_of (appended st st') = cs.
Proof.
  intros (es & Ht & Hc). unfold appended.
  rewrite Ht, drop_app_length. exact Hc.
Qed.

(** *** [Lock] of the etcd adapter *)

(** Whoever holds the key, [Lock] of the etcd adapter returns nil as soon
    as the calls arrive, the lease lasts a second or more and the timeout
    makes a ticker, and the key holds the caller's owner id under the new
    lease. *)
Lemma etcd_lock_ignores_holder st :
  faults st = [] ->
  0 < Duration_whole_seconds (Etcd.lockTimeout (self st)) ->
  0 < Duration_half (Etcd.lockTimeout (self st)) ->
  fst (Etcd.Lock st) = Ret None
  /\ Etcd.kv (store (snd (Etcd.Lock st))) !! Etcd.lockKey (self st) =
       Some (Etcd.ownerID (self st), Etcd.nextLease (store st)).
Proof.
  destruct st as [[id n d t c o lg] now [ls kv nl] fs tks gs cr tr].
  cbn. intros -> Hs Hh.
  assert (Hle : (Duration_half d <=? 0) = false) by (apply Z.leb_gt; exact Hh).
  assert (Hlive : (now <? now + Duration_whole_seconds d * Second) = true).
  { apply Z.ltb_lt. unfold Second. lia. }
  unfold Etcd.Lock, Etcd.Grant, Etcd.Put.
  unfold bind, ret, get_self, put_self, time_Now, log, emit, backend,
    time_NewTicker, go_renewLock.
  cbn. unfold Etcd.do_Put, Etcd.lease_live. cbn.
  rewrite lookup_insert_eq. cbn. rewrite Hlive. cbn. rewrite Hle. cbn.
  split; [reflexivity|]. apply lookup_insert_eq.
Qed.

(** C2 (defect of the etcd adapter).  The key is held by "host-B" under a
    live lease; [Lock] of "host-A" grants a lease, writes the key with a
    plain [Put] and returns nil: the key now holds "host-A". *)
Theorem C2_etcd_lock_overwrites_live_key :
  Etcd.find (clock c2_start) (store c2_start) "onex-distributed-lock"
    = Some ("host-B", 1)
  /\ fst (Etcd.Lock c2_start) = Ret None
  /\ calls_of (trace (snd (Etcd.Lock c2_start))) =
       [Etcd.CGrant 10; Etcd.CPut "onex-distributed-lock" "host-A" 2]
  /\ Etcd.find (clock c2_start) (store (snd (Etcd.Lock c2_start)))
               "onex-distributed-lock"
     = Some ("host-A", 2).
Proof.
  repeat match goal with |- _ /\ _ => split end; vm_compute; reflexivity.
Qed.

(** *** [Renew] of the consul adapter *)

(** [Renew] makes one backend call: the renewal of the session whose id
    is the owner id. *)
Lemma consul_renew_targets_owner st :
  calls_of (appended st (snd (Consul.Renew st))) =
    [Consul.CSessionRenew (Consul.ownerID (self st))].
Proof.
  apply (calls_appended st _
           [Consul.CSessionRenew (Consul.ownerID (self st))]).
  change (wp Consul.Renew
            (fun _ st' =>
               exists es, trace st' = trace st ++ es
                          /\ calls_of es =
                               [Consul.CSessionRenew (Consul.ownerID (self st))])
            st).
  cbv beta delta [Consul.Renew].
  destruct st as [[n d t c o lg] now s fs tks gs cr tr].
  destruct lg; wp_run; eexists; (split; [trace_ext | reflexivity]).
Qed.

(** C6 (defect of the consul adapter).  [Lock] creates the session
    "5f2c-session", which lasts until 10s; five seconds later [Renew]
    asks the server to renew the session "host-1", the owner id, returns
    nil, and the session of the lock still ends at 10s. *)
Theorem C6_consul_renew_wrong_session :
  exists st',
    run consul c6_schedule c6_start = Some st'
    /\ calls_of (trace st') =
         [Consul.CSessionCreate (10 * Second) "release";
          Consul.CKVPut (Consul.mkKVPair "onex-distributed-lock" "host-1"
                                         "5f2c-session");
          Consul.CSessionRenew "host-1"]
    /\ last (trace st') = Some (EvEnd Caller OpRenew (Ret None))
    /\ Consul.deadline <$> (Consul.sessions (store st') !! "5f2c-session")
       = Some (10 * Second)
    /\ clock st' = 5 * Second.
Proof.
  eexists. split; [vm_compute; reflexivity|].
  repeat match goal with |- _ /\ _ => split end; vm_compute; reflexivity.
Qed.

(** *** [Lock] of the zookeeper adapter *)

(** The node [Lock] creates is a persistent one: its one backend call is
    a [Create] with flags 0, and a node made with these flags outlives
    the session. *)
Lemma zookeeper_lock_creates_persistent st :
  calls_of (appended st (snd (Zookeeper.Lock st))) =
    [Zookeeper.CCreate (Zookeeper.lockNode_of (self st)) "" 0]
  /\ forall s path sid,
       Zookeeper.nodes s !! path = None ->
       Zookeeper.nodes
         (Zookeeper.session_closed sid
            (snd (Zookeeper.do_Create path "" 0 (clock st) s))) !! path
       = Some (Zookeeper.mkNode "" None).
Proof.
  split.
  - apply (calls_appended st _
             [Zookeeper.CCreate (Zookeeper.lockNode_of (self st)) "" 0]).
    change (wp Zookeeper.Lock
              (fun _ st' =>
                 exists es, trace st' = trace st ++ es
                            /\ calls_of es =
                                 [Zookeeper.CCreate
                                    (Zookeeper.lockNode_of (self st)) "" 0])
              st).
    cbv beta delta [Zookeeper.Lock].
    destruct st as [[n d t c o lg] now s fs tks gs cr tr].
    destruct lg; wp_run; eexists; (split; [trace_ext | reflexivity]).
  - intros s path sid Hnone. unfold Zookeeper.do_Create. rewrite Hnone. cbn.
    apply map_lookup_filter_Some. split.
    + apply lookup_insert_eq.
    + cbn. discriminate.
Qed.

(** C7 (defect of the zookeeper adapter).  [Lock] returns nil after a
    [Create] with flags 0: the node has no ephemeral owner, and it is
    still there when session 7 has ended. *)
Theorem C7_zookeeper_node_not_ephemeral :
  fst (Zookeeper.Lock c7_start) = Ret None
  /\ calls_of (trace (snd (Zookeeper.Lock c7_start))) =
       [Zookeeper.CCreate "onex-distributed-lock/host-1" "" 0]
  /\ Z.land 0 Zookeeper.FlagEphemeral = 0
  /\ Zookeeper.nodes (store (snd (Zookeeper.Lock c7_start)))
       !! "onex-distributed-lock/host-1"
     = Some (Zookeeper.mkNode "" None)
  /\ Zookeeper.nodes
       (Zookeeper.session_closed 7 (store (snd (Zookeeper.Lock c7_start))))
       !! "onex-distributed-lock/host-1"
     = Some (Zookeeper.mkNode "" None).
Proof.
  repeat match goal with |- _ /\ _ => split end; vm_compute; reflexivity.
Qed.

(** *** [Unlock] and the renewal in flight *)

Ltac release_tac m st A :=
  intros st;
  change (wp m
            (fun _ st' =>
               exists es,
                 trace st' = trace st ++ es
                 /\ stop_before_calls false es = true
                 /\ forall t, a_renewTicker A (self st) = Some t ->
                              In (EvTickerStop t) es) st);
  cbv beta delta [m];
  destruct st as [[] ? ? ? ? ? ? ?];
  match goal with lg : Logger |- _ => destruct lg end;
  wp_run;
  (eexists; split; [trace_ext|]; split; [reflexivity|];
   intros t' Ht'; cbn in Ht'; simplify_eq; cbn;
   repeat first [left; reflexivity | right]).

Lemma redis_stops_before_release : stops_before_release redis.
Proof. release_tac Redis.Unlock st redis. Qed.

Lemma memcached_stops_before_release : stops_before_release memcached.
Proof. release_tac Memcached.Unlock st memcached. Qed.

Lemma etcd_stops_before_release : stops_before_release etcd.
Proof. release_tac Etcd.Unlock st etcd. Qed.

Lemma consul_stops_before_release : stops_before_release consul.
Proof. release_tac Consul.Unlock st consul. Qed.

Lemma zookeeper_stops_before_release : stops_before_release zookeeper.
Proof. release_tac Zookeeper.Unlock st zookeeper. Qed.

Lemma mongo_stops_before_release : stops_before_release mongo.
Proof. release_tac Mongo.Unlock st mongo. Qed.

Lemma gorm_stops_before_release : stops_before_release gorm.
Proof. release_tac Gorm.Unlock st gorm. Qed.

(** C4 (defect shared by the adapters, shown on Redis).  In every
    adapter [Unlock] stops the ticker of [l.renewTicker] before its first
    backend call.  But a tick the goroutine took before [Unlock] still
    runs: in the schedule above the goroutine's [Renew] sends [EXPIRE]
    after [Unlock] has sent [DEL] and returned, and when the goroutine
    comes back to its [select] it reads [l.renewTicker], now nil, and the
    process dies. *)
Theorem C4_renewal_after_release :
  (stops_before_release redis /\ stops_before_release memcached
   /\ stops_before_release etcd /\ stops_before_release consul
   /\ stops_before_release zookeeper /\ stops_before_release mongo
   /\ stops_before_release gorm)
  /\ (exists st',
        run redis c4_schedule c10_start = Some st'
        /\ trace st' =
             [EvBegin Caller OpLock;
              EvCall (Redis.CSetNX "onex-distributed-lock" "host-1" (10 * Second));
              EvNewTicker 0 (5 * Second);
              EvGo 0 [];
              EvEnd Caller OpLock (Ret None);
              EvBegin Caller OpUnlock;
              EvTickerStop 0;
              EvCall (Redis.CDel "onex-distributed-lock");
              EvEnd Caller OpUnlock (Ret None);
              EvBegin (Goroutine 0) OpRenew;
              EvCall (Redis.CExpire "onex-distributed-lock" (10 * Second));
              EvEnd (Goroutine 0) OpRenew (Ret None)]
        /\ late_renewal false false (trace st') = true
        /\ crashed <$> step redis (LEnter 0) st' = Some true).
Proof.
  split.
  - repeat match goal with |- _ /\ _ => split end.
    + exact redis_stops_before_release.
    + exact memcached_stops_before_release.
    + exact etcd_stops_before_release.
    + exact consul_stops_before_release.
    + exact zookeeper_stops_before_release.
    + exact mongo_stops_before_release.
    + exact gorm_stops_before_release.
  - eexists. split; [vm_compute; reflexivity|].
    repeat match goal with |- _ /\ _ => split end; vm_compute; reflexivity.
Qed.

Lemma C4_renewal_after_release_witness :
  a_renewTicker redis (self c4_locked) = Some 0%nat
  /\ exists es,
       trace (snd (Redis.Unlock c4_locked)) = trace c4_locked ++ es
       /\ stop_before_calls false es = true
       /\ In (EvTickerStop 0) es.
Proof.
  split; [vm_compute; reflexivity|].
  destruct C4_renewal_after_release as ((H & _) & _).
  destruct (H c4_locked) as (es & Ht & Hs & Hin).
  exists es. split; [exact Ht|]. split; [exact Hs|].
  apply Hin. vm_compute. reflexivity.
Defined.

(** ** C9: defaults and options *)

(** C9. With no options the configuration is the documented defaults: the
    fixed lock name "onex-distributed-lock", a timeout of 10 seconds, the
    host name as owner and the empty logger, which writes nothing; each
    [With...] option replaces its own field and keeps the other three, and
    [ApplyOptions] applies the options in order on top of the defaults. *)
Theorem C9_defaults_and_overrides :
  forall (host : string * option error),
    Opt.ApplyOptions host [] =
      Opt.mkOptions "onex-distributed-lock" (10 * Second) (fst host) emptyLogger
    /\ (forall lv msg,
          Logger_write (Opt.logger (Opt.ApplyOptions host [])) lv msg = [])
    /\ (forall o n, Opt.WithLockName n o =
          Opt.mkOptions n (Opt.lockTimeout o) (Opt.ownerID o) (Opt.logger o))
    /\ (forall o d, Opt.WithLockTimeout d o =
          Opt.mkOptions (Opt.lockName o) d (Opt.ownerID o) (Opt.logger o))
    /\ (forall o w, Opt.WithOwnerID w o =
          Opt.mkOptions (Opt.lockName o) (Opt.lockTimeout o) w (Opt.logger o))
    /\ (forall o lg, Opt.WithLogger lg o =
          Opt.mkOptions (Opt.lockName o) (Opt.lockTimeout o) (Opt.ownerID o) lg)
    /\ (forall opts opt,
          Opt.ApplyOptions host (opts ++ [opt]) =
            opt (Opt.ApplyOptions host opts)).
Proof.
  intros host. repeat split.
  intros opts opt. unfold Opt.ApplyOptions.
  rewrite fold_left_app. reflexivity.
Qed.
